(** * Screen Time and Health Analysis Dashboard: the analysis script [screen.py]

    A shallow embedding of the script: the survey table, the loader
    [load_data], and the report steps that follow it, written as programs of
    a small state-and-exception monad over the script's variable [df] and the
    page the script writes to.

    Modelling conventions.
    - A Python float is a real number or the float [nan]; infinities and
      rounding are not modelled.
    - A table is the list of its labelled columns, in file order; rows are
      positions in the columns.  [read_csv] gives distinct labels, but the
      rename of the loader can put a long header onto a short name the file
      already has.  Selecting a label takes the first column that carries
      it, which is what pandas does only when the label is carried once: the
      properties of the steps that read columns assume distinct labels.
    - The [st.*] calls only receive values: each appends one [output] to the
      page.  The library computations that reject their argument raise:
      [describe] on a table with no column and the heat map on an empty
      matrix raise [ValueError]; the box plot and the scatter plot raise
      [TypeError] on a column that mixes numbers and text.
    - The dtype of a column is numeric (int64 or float64) or object.
    - Reductions and comparisons over a column that holds text raise
      [TypeError], as pandas 2 does. *)

From Stdlib Require Import String Ascii List Sorted Bool Arith NArith Lia.
From Stdlib Require Import Reals Lra ROrderedType.
Import ListNotations.

Local Open Scope string_scope.
Local Open Scope list_scope.

(** ** Values *)

Inductive float : Type :=
| Fin (x : R)
| nan.

Inductive cell : Type :=
| Num (f : float)
| Str (s : string).

Definition column := list cell.
Definition table := list (string * column).

Inductive exn : Type :=
| KeyError
| TypeError
| ValueError.

Inductive outcome (A : Type) : Type :=
| Done (a : A)
| Raised (e : exn).
Arguments Done {A} a.
Arguments Raised {A} e.

Definition isnull (c : cell) : bool :=
  match c with
  | Num nan => true
  | _ => false
  end.

(** ** Float arithmetic and comparisons ([nan] propagates, compares false) *)

Definition fadd (a b : float) : float :=
  match a, b with
  | Fin x, Fin y => Fin (x + y)
  | _, _ => nan
  end.

Definition fsub (a b : float) : float :=
  match a, b with
  | Fin x, Fin y => Fin (x - y)
  | _, _ => nan
  end.

Definition fmul (a b : float) : float :=
  match a, b with
  | Fin x, Fin y => Fin (x * y)
  | _, _ => nan
  end.

Definition Rgeb (x y : R) : bool := if Rle_dec y x then true else false.
Definition Rltb (x y : R) : bool := if Rlt_dec x y then true else false.

Definition fge (a b : float) : bool :=
  match a, b with
  | Fin x, Fin y => Rgeb x y
  | _, _ => false
  end.

Definition flt (a b : float) : bool :=
  match a, b with
  | Fin x, Fin y => Rltb x y
  | _, _ => false
  end.

(** ** Table primitives *)

Definition columns (df : table) : list string := map fst df.

(** [c in df.columns] *)
Definition has_column (c : string) (df : table) : bool :=
  existsb (String.eqb c) (columns df).

(** [{...}.issubset(df.columns)] *)
Definition issubset (cs : list string) (df : table) : bool :=
  forallb (fun c => has_column c df) cs.

Fixpoint lookup (c : string) (df : table) : option column :=
  match df with
  | [] => None
  | (c', xs) :: df' => if String.eqb c c' then Some xs else lookup c df'
  end.

(** [df[c]] *)
Definition getitem (c : string) (df : table) : outcome column :=
  match lookup c df with
  | Some xs => Done xs
  | None => Raised KeyError
  end.

(** [df.shape[0]]; a table is the list of its columns, so a table with no
    column has no row here (pandas keeps the row index of such a table). *)
Definition nrows (df : table) : nat :=
  match df with
  | [] => 0
  | (_, xs) :: _ => length xs
  end.

(** [df.drop(labels, axis=1)] *)
Definition drop (labels : list string) (df : table) : outcome table :=
  if forallb (fun l => has_column l df) labels
  then Done (filter (fun p => negb (existsb (String.eqb (fst p)) labels)) df)
  else Raised KeyError.

Fixpoint rename_label (m : list (string * string)) (c : string) : string :=
  match m with
  | [] => c
  | (old, new) :: m' => if String.eqb c old then new else rename_label m' c
  end.

(** [df.rename(columns=m)] *)
Definition rename (m : list (string * string)) (df : table) : table :=
  map (fun p => (rename_label m (fst p), snd p)) df.

(** [df.replace(np.nan, value)] *)
Definition replace_nan (value : cell) (df : table) : table :=
  map (fun p => (fst p, map (fun x => if isnull x then value else x) (snd p))) df.

(** [df.isnull().sum()] *)
Definition isnull_sum (df : table) : list (string * nat) :=
  map (fun p => (fst p, length (filter isnull (snd p)))) df.

(** [df.head(n)] *)
Definition head (n : nat) (df : table) : table :=
  map (fun p => (fst p, firstn n (snd p))) df.

(** ** Loader *)

Definition rename_columns : list (string * string) :=
  [ ("What is your age?", "Age");
    ("What is your gender?", "Gender");
    ("What is your education level?", "Education");
    ("On an average weekday, how many hours do you spend looking at screens (computers, smartphones, tablets, TVs, etc.) for non-academic purposes (e.g., entertainment, social media, gaming)?", "ST_Weekday");
    ("On an average weekend day, how many hours do you spend looking at screens for non-academic purposes?", "ST_Weekend");
    ("Which of the following activities do you engage in on screens during your leisure time?", "Leisure_ST_Act");
    ("How often do you engage in this activity?", "Average_Distraction");
    ("Do you experience any of the following health issues due to a prolonged screen time?", "Health_Effects");
    ("Are you aware of the negative effects of excessive screen time on health (e.g., eye strain, sleep disturbances, sedentary lifestyle, mental health)?", "Health_awarness");
    ("What devices do you primarily use for leisure screen time?", "Devices_Used_In_Leisure");
    ("On average, how many hours of sleep do you get on a typical weekday night?", "Ave_Weekday_Sleep");
    ("On average, how many hours of sleep do you get on a typical weekend night?", "Ave_Weekend_Sleep");
    ("Do you use any corrective eyewear? (specs, contact lenses, etc)", "Eyewear_User");
    ("Has your screen time affected your face-to-face social interactions with friends and family?", "Interaction_Affects");
    ("Do you actively try to limit your screen time to mitigate these negative effects?", "Mitigate_Screen_time") ].

(** [load_data], applied to the table [pd.read_csv] parsed from the file. *)
Definition load_data (csv : table) : outcome table :=
  match drop ["Timestamp"] csv with
  | Raised e => Raised e
  | Done df => Done (replace_nan (Str "0") (rename rename_columns df))
  end.

(** ** Reductions over a column *)

(** The non-missing numbers of a column ([skipna=True]); text is rejected. *)
Fixpoint numbers (xs : column) : outcome (list R) :=
  match xs with
  | [] => Done []
  | Num (Fin x) :: t =>
      match numbers t with
      | Done l => Done (x :: l)
      | Raised e => Raised e
      end
  | Num nan :: t => numbers t
  | Str _ :: _ => Raised TypeError
  end.

(** The non-missing cells of a column when all of them are text. *)
Fixpoint texts (xs : column) : option (list string) :=
  match xs with
  | [] => Some []
  | Str s :: t =>
      match texts t with
      | Some l => Some (s :: l)
      | None => None
      end
  | Num nan :: t => texts t
  | Num (Fin _) :: _ => None
  end.

Definition Rsum (l : list R) : R := fold_right Rplus 0%R l.

Definition nanmean (l : list R) : float :=
  match l with
  | [] => nan
  | _ => Fin (Rsum l / INR (length l))
  end.

Definition nanvar (ddof : nat) (l : list R) : float :=
  let count := length l in
  if (count <=? ddof)%nat then nan
  else
    let avg := (Rsum l / INR count)%R in
    let sqr := map (fun x => ((avg - x) * (avg - x))%R) l in
    Fin (Rsum sqr / INR (count - ddof)).

Definition fsqrt (a : float) : float :=
  match a with
  | Fin x => if Rlt_dec x 0 then nan else Fin (sqrt x)
  | nan => nan
  end.

(** [xs.mean()] *)
Definition mean (xs : column) : outcome float :=
  match numbers xs with
  | Done l => Done (nanmean l)
  | Raised e => Raised e
  end.

(** [xs.std(ddof=ddof)] *)
Definition series_std (ddof : nat) (xs : column) : outcome float :=
  match numbers xs with
  | Done l => Done (fsqrt (nanvar ddof l))
  | Raised e => Raised e
  end.

(** [xs.std()]: the default of [Series.std] is [ddof=1]. *)
Definition std (xs : column) : outcome float := series_std 1 xs.

Definition string_min (s t : string) : string := if String.leb s t then s else t.
Definition string_max (s t : string) : string := if String.leb s t then t else s.

Definition extremum (fr : R -> R -> R) (fs : string -> string -> string)
    (xs : column) : outcome cell :=
  match numbers xs with
  | Done [] => Done (Num nan)
  | Done (x :: l) => Done (Num (Fin (fold_left fr l x)))
  | Raised _ =>
      match texts xs with
      | Some (s :: l) => Done (Str (fold_left fs l s))
      | _ => Raised TypeError
      end
  end.

(** [xs.min()] and [xs.max()] *)
Definition series_min : column -> outcome cell := extremum Rmin string_min.
Definition series_max : column -> outcome cell := extremum Rmax string_max.

(** [xs op b], element by element. *)
Fixpoint compare_series (op : float -> float -> bool) (xs : column) (b : float)
    : outcome (list bool) :=
  match xs with
  | [] => Done []
  | Num a :: t =>
      match compare_series op t b with
      | Done m => Done (op a b :: m)
      | Raised e => Raised e
      end
  | Str _ :: _ => Raised TypeError
  end.

Definition series_ge := compare_series fge.
Definition series_lt := compare_series flt.

(** ** Selection and assignment by a boolean mask *)

Fixpoint where_assign (mask : list bool) (v : cell) (xs : column) : column :=
  match mask, xs with
  | b :: mask', x :: xs' => (if b then v else x) :: where_assign mask' v xs'
  | _, _ => xs
  end.

(** [df.loc[mask, c] = v] *)
Definition loc_assign (mask : list bool) (c : string) (v : cell) (df : table) : table :=
  map (fun p => if String.eqb (fst p) c
                then (fst p, where_assign mask v (snd p)) else p) df.

Fixpoint select (mask : list bool) (xs : column) : column :=
  match mask, xs with
  | b :: mask', x :: xs' => if b then x :: select mask' xs' else select mask' xs'
  | _, _ => []
  end.

(** [df[mask]] *)
Definition getitem_mask (mask : list bool) (df : table) : table :=
  map (fun p => (fst p, select mask (snd p))) df.

(** [df[[c1, c2, ...]]] *)
Fixpoint getitem_list (cs : list string) (df : table) : outcome table :=
  match cs with
  | [] => Done []
  | c :: cs' =>
      match getitem c df with
      | Raised e => Raised e
      | Done xs =>
          match getitem_list cs' df with
          | Raised e => Raised e
          | Done t => Done ((c, xs) :: t)
          end
      end
  end.

Definition is_number (c : cell) : bool :=
  match c with
  | Num _ => true
  | Str _ => false
  end.

Inductive dtype : Type :=
| numeric
| object.

Definition dtype_of (xs : column) : dtype :=
  match xs with
  | [] => object
  | _ => if forallb is_number xs then numeric else object
  end.

Definition is_numeric (xs : column) : bool :=
  match dtype_of xs with
  | numeric => true
  | object => false
  end.

(** [df.select_dtypes(include=[np.number])] *)
Definition select_dtypes_number (df : table) : table :=
  filter (fun p => is_numeric (snd p)) df.

(** ** Grouping *)

(** Order of group keys: numbers, then text, then missing. *)
Definition cell_compare (a b : cell) : comparison :=
  match a, b with
  | Num (Fin x), Num (Fin y) => Rcompare x y
  | Num (Fin _), _ => Lt
  | Str _, Num (Fin _) => Gt
  | Str s, Str t => String.compare s t
  | Str _, Num nan => Lt
  | Num nan, Num nan => Eq
  | Num nan, _ => Gt
  end.

Definition cell_lt (a b : cell) : Prop := cell_compare a b = Lt.

Definition cell_eqb (a b : cell) : bool :=
  match cell_compare a b with
  | Eq => true
  | _ => false
  end.

Fixpoint add_row (k v : cell) (g : list (cell * column)) : list (cell * column) :=
  match g with
  | [] => [(k, [v])]
  | (k', vs) :: g' =>
      match cell_compare k k' with
      | Lt => (k, [v]) :: g
      | Eq => (k', v :: vs) :: g'
      | Gt => (k', vs) :: add_row k v g'
      end
  end.

(** The groups of [vals] by [keys], keys ascending, rows with a missing key
    dropped, the values of a group in row order. *)
Fixpoint groups (keys vals : column) : list (cell * column) :=
  match keys, vals with
  | k :: keys', v :: vals' =>
      if isnull k then groups keys' vals' else add_row k v (groups keys' vals')
  | _, _ => []
  end.

Fixpoint agg_mean (g : list (cell * column)) : outcome (list (cell * float)) :=
  match g with
  | [] => Done []
  | (k, vs) :: g' =>
      match mean vs with
      | Raised e => Raised e
      | Done m =>
          match agg_mean g' with
          | Raised e => Raised e
          | Done r => Done ((k, m) :: r)
          end
      end
  end.

(** [df.groupby(by)[c].mean()] *)
Definition groupby_mean (by_ c : string) (df : table) : outcome (list (cell * float)) :=
  match getitem by_ df with
  | Raised e => Raised e
  | Done keys =>
      match getitem c df with
      | Raised e => Raised e
      | Done vals => agg_mean (groups keys vals)
      end
  end.

(** ** Cross-tabulation *)

Definition uniques (xs : column) : column := map fst (groups xs xs).

Fixpoint count_pairs (r c : cell) (rows : list (cell * cell)) : nat :=
  match rows with
  | [] => 0
  | (x, y) :: rows' =>
      (if cell_eqb x r && cell_eqb y c then 1 else 0) + count_pairs r c rows'
  end.

(** [pd.crosstab(a, b)]: rows with a missing entry are left out. *)
Definition crosstab (a b : column) : list (list nat) :=
  let rows := filter (fun p => negb (isnull (fst p)) && negb (isnull (snd p)))
                     (combine a b) in
  map (fun r => map (fun c => count_pairs r c rows) (uniques (map snd rows)))
      (uniques (map fst rows)).

(** ** The page *)

Inductive plot : Type :=
| Heatmap (corr_of : table)
| Boxplot (y : column)
| Bar (heights : list (cell * float)) (title xlabel ylabel : string)
| Scatter (x y : column) (title xlabel ylabel : string).

Inductive output : Type :=
| Title (s : string)
| Subheader (s : string)
| WriteText (s : string)
| WriteCount (label : string) (n : nat)
| WriteColumns (names : list string)
| WriteList (label : string) (names : list string)
| WriteValue (label : string) (v : cell) (suffix : string)
| WriteFrame (t : table)
| TextInfo (lines : list (string * nat * dtype))
| WriteDescribe (frame : table)
| WriteCounts (counts : list (string * nat))
| WriteCorr (numeric_df : table)
| Pyplot (fig : plot).

(** [df.info()]: label, non-null count and dtype of every column. *)
Definition info (d : table) : list (string * nat * dtype) :=
  map (fun p => (fst p, length (filter (fun x => negb (isnull x)) (snd p)),
                 dtype_of (snd p))) d.

(** [df.describe()]; the summary is not computed, the page records the table
    it is taken of. *)
Definition describe (d : table) : outcome output :=
  match d with
  | [] => Raised ValueError
  | _ => Done (WriteDescribe d)
  end.

Definition is_text (c : cell) : bool := negb (is_number c).

(** The column holds numbers and text side by side. *)
Definition mixed (xs : column) : bool := existsb is_number xs && existsb is_text xs.

(** [sns.boxplot(y=y, ax=ax)] *)
Definition boxplot (y : column) : outcome plot :=
  if mixed y then Raised TypeError else Done (Boxplot y).

(** [ax.scatter(x, y, alpha=0.5)] with its title and axis labels *)
Definition scatter (x y : column) (title xlabel ylabel : string) : outcome plot :=
  if mixed x || mixed y then Raised TypeError
  else Done (Scatter x y title xlabel ylabel).

(** [sns.heatmap(numeric_df.corr(), annot=True, cmap='coolwarm')] *)
Definition heatmap (numeric_df : table) : outcome plot :=
  match numeric_df with
  | [] => Raised ValueError
  | _ => Done (Heatmap numeric_df)
  end.

(** ** The script monad: the variable [df], the page, and exceptions *)

Record state : Type := { df : table; page : list output }.

Definition script (A : Type) : Type := state -> outcome A * state.

Definition ret {A} (a : A) : script A := fun s => (Done a, s).

Definition bind {A B} (m : script A) (k : A -> script B) : script B :=
  fun s =>
    match m s with
    | (Done a, s') => k a s'
    | (Raised e, s') => (Raised e, s')
    end.

Definition lift {A} (o : outcome A) : script A := fun s => (o, s).

Definition emit (o : output) : script unit :=
  fun s => (Done tt, {| df := df s; page := page s ++ [o] |}).

Definition get_df : script table := fun s => (Done (df s), s).

Definition set_df (d : table) : script unit :=
  fun s => (Done tt, {| df := d; page := page s |}).

Notation "x <- m ;; k" := (bind m (fun x => k))
  (at level 61, m at next level, right associativity).
Notation "m ;; k" := (bind m (fun _ => k))
  (at level 61, right associativity).

Definition st_subheader (s : string) : script unit := emit (Subheader s).
Definition st_write (s : string) : script unit := emit (WriteText s).
Definition st_pyplot (fig : plot) : script unit := emit (Pyplot fig).

(** ** The report steps, in script order *)

Definition show_raw_data (checkbox : bool) : script unit :=
  d <- get_df ;;
  if checkbox then emit (WriteFrame (head 10 d)) else ret tt.

Definition data_information : script unit :=
  d <- get_df ;;
  st_subheader "Data Information" ;;
  emit (WriteCount "Number of rows: " (nrows d)) ;;
  emit (WriteCount "Number of columns: " (length d)) ;;
  st_write "Columns:" ;;
  emit (WriteColumns (columns d)).

Definition basic_information : script unit :=
  d <- get_df ;;
  st_subheader "Basic Information" ;;
  emit (TextInfo (info d)).

Definition statistical_summary : script unit :=
  d <- get_df ;;
  st_subheader "Statistical Summary" ;;
  o <- lift (describe d) ;;
  emit o.

Definition null_values : script unit :=
  d <- get_df ;;
  st_subheader "Null Values" ;;
  emit (WriteCounts (isnull_sum d)).

Definition correlation_analysis : script unit :=
  d <- get_df ;;
  st_subheader "Correlation Analysis" ;;
  let numeric_df := select_dtypes_number d in
  emit (WriteCorr numeric_df) ;;
  fig <- lift (heatmap numeric_df) ;;
  st_pyplot fig.

Definition msg_no_weekday_sleep : string :=
  "Column 'Ave_Weekday_Sleep' does not exist in the DataFrame.".

Definition outlier_analysis : script unit :=
  st_subheader "Outlier Analysis - Weekday Sleep" ;;
  d <- get_df ;;
  emit (WriteList "Columns in DataFrame:" (columns d)) ;;
  if has_column "Ave_Weekday_Sleep" d then
    y <- lift (getitem "Ave_Weekday_Sleep" d) ;;
    fig <- lift (boxplot y) ;;
    st_pyplot fig ;;
    avg_sleep <- lift (mean y) ;;
    min_sleep <- lift (series_min y) ;;
    max_sleep <- lift (series_max y) ;;
    std_dev <- lift (std y) ;;
    let upper_limit := fadd avg_sleep (fmul (Fin 3) std_dev) in
    let lower_limit := fsub avg_sleep (fmul (Fin 3) std_dev) in
    emit (WriteValue "The Average weekday sleep of the respondents was found to be: "
                     (Num avg_sleep) "hrs") ;;
    emit (WriteValue "The Minimum weekday sleep of the respondents was found to be: "
                     min_sleep "hrs") ;;
    emit (WriteValue "The Maximum weekday sleep of the respondents was found to be: "
                     max_sleep "hrs") ;;
    emit (WriteValue "Upper limit for outliers: " (Num upper_limit) "") ;;
    emit (WriteValue "Lower limit for outliers: " (Num lower_limit) "") ;;
    mask <- lift (series_ge y upper_limit) ;;
    set_df (loc_assign mask "Ave_Weekday_Sleep" (Num upper_limit) d) ;;
    d' <- get_df ;;
    y' <- lift (getitem "Ave_Weekday_Sleep" d') ;;
    fig' <- lift (boxplot y') ;;
    st_pyplot fig'
  else
    st_write msg_no_weekday_sleep.

Definition msg_no_age_or_sleep : string :=
  "Columns 'Age' and/or 'Ave_Weekday_Sleep' do not exist in the DataFrame.".

Definition sleep_by_age_group : script unit :=
  st_subheader "Average Weekday Sleep by Age Group" ;;
  d <- get_df ;;
  if has_column "Age" d && has_column "Ave_Weekday_Sleep" d then
    age_group_means <- lift (groupby_mean "Age" "Ave_Weekday_Sleep" d) ;;
    st_pyplot (Bar age_group_means "Average Weekday Sleep by Age Group"
                   "Age Group" "Average Weekday Sleep (hours)")
  else
    st_write msg_no_age_or_sleep.

Definition msg_no_projection : string :=
  "One or more of the columns 'Health_Effects', 'Eyewear_User', 'Interaction_Affects' do not exist in the DataFrame.".

Definition msg_no_health_effects : string :=
  "Column 'Health_Effects' does not exist in the DataFrame.".

(** The projection of the short sleepers to three columns. *)
Definition health_issues_report (filtered_df : table) : script unit :=
  st_write "Health issues, eyewear use, and social interaction of such respondents" ;;
  d <- get_df ;;
  if issubset ["Health_Effects"; "Eyewear_User"; "Interaction_Affects"] d then
    t <- lift (getitem_list ["Health_Effects"; "Eyewear_User"; "Interaction_Affects"]
                            filtered_df) ;;
    emit (WriteFrame (head 5 t))
  else
    st_write msg_no_projection.

(** The scatter plot of sleep time against health issues. *)
Definition sleep_health_scatter (filtered_df : table) : script unit :=
  st_subheader "Impact of Sleep Time on Health Issues" ;;
  d <- get_df ;;
  if has_column "Health_Effects" d then
    xs <- lift (getitem "Ave_Weekday_Sleep" filtered_df) ;;
    ys <- lift (getitem "Health_Effects" filtered_df) ;;
    fig <- lift (scatter xs ys "Impact of Sleep Time on Health Issues"
                         "Weekday Sleep (hours)" "Health Issues") ;;
    st_pyplot fig
  else
    st_write msg_no_health_effects.

Definition less_than_6_hours : script unit :=
  st_subheader "Respondents with Less than 6 Hours of Weekday Sleep" ;;
  d <- get_df ;;
  if has_column "Ave_Weekday_Sleep" d then
    y <- lift (getitem "Ave_Weekday_Sleep" d) ;;
    mask <- lift (series_lt y (Fin 6)) ;;
    let filtered_df := getitem_mask mask d in
    emit (WriteFrame (head 5 filtered_df)) ;;
    health_issues_report filtered_df ;;
    sleep_health_scatter filtered_df
  else
    st_write msg_no_weekday_sleep.

Section Association.

(** [scipy.stats.chi2_contingency], its p-value; the library may raise. *)
Variable chi2_contingency : list (list nat) -> outcome R.

Definition association_test (x subheader significant not_significant missing : string)
    : script unit :=
  st_subheader subheader ;;
  d <- get_df ;;
  if has_column x d && has_column "Interaction_Affects" d then
    a <- lift (getitem x d) ;;
    b <- lift (getitem "Interaction_Affects" d) ;;
    let contingency_table := crosstab a b in
    p <- lift (chi2_contingency contingency_table) ;;
    emit (WriteValue "p-value is: " (Num (Fin p)) "") ;;
    if Rltb p 0.05 then st_write significant else st_write not_significant
  else
    st_write missing.

Definition msg_weekday_significant : string :=
  "There is a significant association between average weekday screentime and social interaction.".
Definition msg_weekday_not_significant : string :=
  "There is no significant association between average weekday screentime and social interaction.".
Definition msg_no_weekday_columns : string :=
  "Columns 'ST_Weekday' and/or 'Interaction_Affects' do not exist in the DataFrame.".
Definition msg_weekend_significant : string :=
  "There is a significant association between average weekend screentime and social interaction.".
Definition msg_weekend_not_significant : string :=
  "There is no significant association between average weekend screentime and social interaction.".
Definition msg_no_weekend_columns : string :=
  "Columns 'ST_Weekend' and/or 'Interaction_Affects' do not exist in the DataFrame.".

Definition chi_square_weekday : script unit :=
  association_test "ST_Weekday"
    "Impact of Screentime on Social Interaction (Weekday)"
    msg_weekday_significant msg_weekday_not_significant msg_no_weekday_columns.

Definition chi_square_weekend : script unit :=
  association_test "ST_Weekend"
    "Impact of Screentime on Social Interaction (Weekend)"
    msg_weekend_significant msg_weekend_not_significant msg_no_weekend_columns.

(** Everything the script does after [df = load_data()]. *)
Definition report (checkbox : bool) : script unit :=
  show_raw_data checkbox ;;
  data_information ;;
  basic_information ;;
  statistical_summary ;;
  null_values ;;
  correlation_analysis ;;
  outlier_analysis ;;
  sleep_by_age_group ;;
  less_than_6_hours ;;
  chi_square_weekday ;;
  chi_square_weekend.

Definition banner : list output :=
  [ Title "Screen Time and Health Analysis Dashboard";
    WriteText "
This dashboard provides an analysis of survey data on screen time, sleep patterns, and their impact on health and social interactions.
" ].

(** One run of the script on the parsed file. *)
Definition screen (csv : table) (checkbox : bool) : outcome unit * list output :=
  match load_data csv with
  | Raised e => (Raised e, banner)
  | Done d =>
      let (r, s) := report checkbox {| df := d; page := banner |} in
      (r, page s)
  end.

End Association.

(** ** Inputs used in the examples *)

(** A file whose headers are already the short names. *)
Definition csv_short_headers : table :=
  [ ("Timestamp", [Str "2024/03/01"; Str "2024/03/02"]);
    ("Age", [Str "18-24"; Str "25-34"]);
    ("Ave_Weekday_Sleep", [Num (Fin 7); Num (Fin 5)]) ].

(** A file with the long headers and a gap in every column. *)
Definition csv_with_gaps : table :=
  [ ("Timestamp", [Str "2024/03/01"; Str "2024/03/02"]);
    ("What is your age?", [Str "18-24"; Num nan]);
    ("On average, how many hours of sleep do you get on a typical weekday night?",
     [Num nan; Num (Fin 7)]);
    ("On average, how many hours of sleep do you get on a typical weekend night?",
     [Num (Fin 8); Num (Fin 9)]) ].

(** The table the loader makes of it. *)
Definition survey_with_gaps : table :=
  [ ("Age", [Str "18-24"; Str "0"]);
    ("Ave_Weekday_Sleep", [Str "0"; Num (Fin 7)]);
    ("Ave_Weekend_Sleep", [Num (Fin 8); Num (Fin 9)]) ].

(** A column of numbers. *)
Definition finite (vs : list R) : column := map (fun v => Num (Fin v)) vs.

(** [min(v, bound)], where a [nan] bound caps nothing. *)
Definition cap (bound : float) (v : R) : R :=
  match bound with
  | Fin u => Rmin v u
  | nan => v
  end.

(** The sample standard deviation (divisor n - 1) and the population standard
    deviation (divisor n) of a list of numbers, as the textbook formulas. *)
Definition arithmetic_mean (vs : list R) : R := (Rsum vs / INR (length vs))%R.

Definition squared_deviations (vs : list R) : R :=
  Rsum (map (fun v => ((v - arithmetic_mean vs) ^ 2)%R) vs).

Definition sample_std (vs : list R) : R :=
  sqrt (squared_deviations vs / (INR (length vs) - 1)).

Definition population_std (vs : list R) : R :=
  sqrt (squared_deviations vs / INR (length vs)).

(** The bounds of the three-sigma rule, from the textbook mean and sample
    deviation; undefined for fewer than two values. *)
Definition upper_bound (vs : list R) : float :=
  if (2 <=? length vs)%nat then Fin (arithmetic_mean vs + 3 * sample_std vs) else nan.

Definition lower_bound (vs : list R) : float :=
  if (2 <=? length vs)%nat then Fin (arithmetic_mean vs - 3 * sample_std vs) else nan.

(** The bounds the outlier step computes from the numbers of the column, and
    the table it leaves behind. *)
Definition upper_limit_of (vs : list R) : float :=
  fadd (nanmean vs) (fmul (Fin 3) (fsqrt (nanvar 1 vs))).

Definition lower_limit_of (vs : list R) : float :=
  fsub (nanmean vs) (fmul (Fin 3) (fsqrt (nanvar 1 vs))).

Definition clamped (vs : list R) (d : table) : table :=
  loc_assign (map (fun v => fge (Fin v) (upper_limit_of vs)) vs)
             "Ave_Weekday_Sleep" (Num (upper_limit_of vs)) d.

(** Sixteen respondents: fifteen sleep 7 hours, one sleeps 23. *)
Definition sleep16 : list R := (repeat 7 15 ++ [23])%R.

Definition survey16 : table :=
  [ ("Age", repeat (Str "25-34") 8 ++ repeat (Str "18-24") 8);
    ("Ave_Weekday_Sleep", finite sleep16);
    ("Ave_Weekend_Sleep", finite (repeat 8%R 16)) ].

(** A table without the weekday sleep and health columns. *)
Definition survey_no_sleep : table :=
  [ ("Age", [Str "18-24"; Str "25-34"]);
    ("Ave_Weekend_Sleep", [Num (Fin 8); Num (Fin 9)]) ].

(** The entries of [vals] on the rows whose key is [k], in row order. *)
Fixpoint rows_of {A} (k : cell) (keys : column) (vals : list A) : list A :=
  match keys, vals with
  | k' :: keys', v :: vals' =>
      if cell_eqb k' k then v :: rows_of k keys' vals' else rows_of k keys' vals'
  | _, _ => []
  end.

(** The number of rows on which the first column holds [r] and the second
    holds [c]. *)
Definition joint_count (r c : cell) (a b : column) : nat :=
  length (filter (fun p => cell_eqb (fst p) r && cell_eqb (snd p) c) (combine a b)).

(** The grand total of a contingency table. *)
Definition grand_total (t : list (list nat)) : nat := list_sum (map (@list_sum) t).

(** Four respondents with their screen time and the effect on interaction. *)
Definition survey_screentime : table :=
  [ ("ST_Weekday", [Str "1-2"; Str "3-4"; Str "1-2"; Str "3-4"]);
    ("ST_Weekend", [Str "3-4"; Str "5+"; Str "5+"; Str "5+"]);
    ("Interaction_Affects", [Str "No"; Str "Yes"; Str "No"; Str "Yes"]) ].

(** The labels of a list are pairwise different. *)
Fixpoint distinct (l : list string) : bool :=
  match l with
  | [] => true
  | x :: t => negb (existsb (String.eqb x) t) && distinct t
  end.

(** The long header of the weekday screen time question. *)
Definition long_ST_Weekday : string :=
  "On an average weekday, how many hours do you spend looking at screens (computers, smartphones, tablets, TVs, etc.) for non-academic purposes (e.g., entertainment, social media, gaming)?".

(** [m] leaves the variable [df] alone whenever it holds [d], whether it
    returns or raises. *)
Definition keeps_df {A} (d : table) (m : script A) : Prop :=
  forall s, df s = d -> df (snd (m s)) = d.

(** Five respondents, three of them short sleepers, with their health answers. *)
Definition survey_short_nights : table :=
  [ ("Age", [Str "18-24"; Str "25-34"; Str "18-24"; Str "35-44"; Str "25-34"]);
    ("Ave_Weekday_Sleep", finite [5; 7; 6; 4; 23]%R);
    ("Health_Effects", [Str "Eye strain"; Str "None"; Str "Headache";
                        Str "Eye strain"; Str "None"]);
    ("Eyewear_User", [Str "Yes"; Str "No"; Str "No"; Str "Yes"; Str "No"]);
    ("Interaction_Affects", [Str "Yes"; Str "No"; Str "No"; Str "Yes"; Str "No"]) ].


(** A stand-in for the library test: it reports the same p-value for every
    contingency table. *)
Definition chi2_constant (p : R) : list (list nat) -> outcome R := fun _ => Done p.

(** A stand-in for the library test that rejects every contingency table. *)
Definition chi2_rejecting : list (list nat) -> outcome R := fun _ => Raised ValueError.

(** Four respondents with their sleep, their screen time and the effect on
    interaction. *)
Definition survey_sleep_screentime : table :=
  ("Ave_Weekday_Sleep", finite [7; 5; 6; 8]%R) :: survey_screentime.

(** ** The column guards of the report *)

Inductive guarded : Type :=
| OutlierAnalysis
| SleepByAgeGroup
| LessThan6Hours
| HealthIssuesReport (filtered_df : table)
| SleepHealthScatter (filtered_df : table)
| ChiSquareWeekday
| ChiSquareWeekend.

Definition run_guarded (chi2_contingency : list (list nat) -> outcome R)
    (g : guarded) : script unit :=
  match g with
  | OutlierAnalysis => outlier_analysis
  | SleepByAgeGroup => sleep_by_age_group
  | LessThan6Hours => less_than_6_hours
  | HealthIssuesReport filtered_df => health_issues_report filtered_df
  | SleepHealthScatter filtered_df => sleep_health_scatter filtered_df
  | ChiSquareWeekday => chi_square_weekday chi2_contingency
  | ChiSquareWeekend => chi_square_weekend chi2_contingency
  end.

(** The labels a step tests for. *)
Definition requires (g : guarded) : list string :=
  match g with
  | OutlierAnalysis => ["Ave_Weekday_Sleep"]
  | SleepByAgeGroup => ["Age"; "Ave_Weekday_Sleep"]
  | LessThan6Hours => ["Ave_Weekday_Sleep"]
  | HealthIssuesReport _ => ["Health_Effects"; "Eyewear_User"; "Interaction_Affects"]
  | SleepHealthScatter _ => ["Health_Effects"]
  | ChiSquareWeekday => ["ST_Weekday"; "Interaction_Affects"]
  | ChiSquareWeekend => ["ST_Weekend"; "Interaction_Affects"]
  end.

(** What a step writes when one of them is absent. *)
Definition fallback (g : guarded) (d : table) : list output :=
  match g with
  | OutlierAnalysis =>
      [ Subheader "Outlier Analysis - Weekday Sleep";
        WriteList "Columns in DataFrame:" (columns d);
        WriteText msg_no_weekday_sleep ]
  | SleepByAgeGroup =>
      [ Subheader "Average Weekday Sleep by Age Group"; WriteText msg_no_age_or_sleep ]
  | LessThan6Hours =>
      [ Subheader "Respondents with Less than 6 Hours of Weekday Sleep";
        WriteText msg_no_weekday_sleep ]
  | HealthIssuesReport _ =>
      [ WriteText "Health issues, eyewear use, and social interaction of such respondents";
        WriteText msg_no_projection ]
  | SleepHealthScatter _ =>
      [ Subheader "Impact of Sleep Time on Health Issues"; WriteText msg_no_health_effects ]
  | ChiSquareWeekday =>
      [ Subheader "Impact of Screentime on Social Interaction (Weekday)";
        WriteText msg_no_weekday_columns ]
  | ChiSquareWeekend =>
      [ Subheader "Impact of Screentime on Social Interaction (Weekend)";
        WriteText msg_no_weekend_columns ]
  end.

Definition skipped (g : guarded) (s : state) : state :=
  {| df := df s; page := page s ++ fallback g (df s) |}.

(** [m] treats the page as a sink: what it returns and what it leaves in
    [df] do not depend on the page it starts from, and it only appends. *)
Definition writes_only {A} (m : script A) : Prop :=
  forall d, exists r d' out,
    forall pg, m {| df := d; page := pg |} = (r, {| df := d'; page := pg ++ out |}).

(** Started with [df = d], [m] returns and leaves [df = d']. *)
Definition completes (d d' : table) (m : script unit) : Prop :=
  forall pg, exists pg',
    m {| df := d; page := pg |} = (Done tt, {| df := d'; page := pg' |}).


(** * Properties *)

(** ** Labels *)

Lemma has_column_In (c : string) (d : table) :
  has_column c d = true <-> In c (columns d).
Proof.
  unfold has_column. rewrite existsb_exists. split.
  - intros [x [Hin Heq]]. apply String.eqb_eq in Heq. now subst.
  - intros Hin. exists c. split; [assumption | apply String.eqb_refl].
Qed.

Lemma has_column_false (c : string) (d : table) :
  has_column c d = false <-> ~ In c (columns d).
Proof.
  rewrite <- has_column_In. destruct (has_column c d); split; intros H;
    congruence.
Qed.

Lemma lookup_has_column (c : string) (d : table) :
  has_column c d = true -> exists xs, lookup c d = Some xs.
Proof.
  unfold has_column, columns. induction d as [|[c' xs] d IH]; simpl.
  - discriminate.
  - destruct (String.eqb c c'); simpl; eauto.
Qed.

Lemma columns_rename (m : list (string * string)) (d : table) :
  columns (rename m d) = map (rename_label m) (columns d).
Proof.
  unfold columns, rename. rewrite !map_map. reflexivity.
Qed.

Lemma columns_replace_nan (v : cell) (d : table) :
  columns (replace_nan v d) = columns d.
Proof.
  unfold columns, replace_nan. rewrite map_map. reflexivity.
Qed.

Lemma rename_label_other (m : list (string * string)) (c : string) :
  ~ In c (map fst m) -> rename_label m c = c.
Proof.
  induction m as [|[old new] m IH]; simpl; [reflexivity|].
  intros H. destruct (String.eqb_spec c old) as [->|Hne].
  - exfalso. apply H. now left.
  - apply IH. intros Hin. apply H. now right.
Qed.

Lemma rename_label_cases (m : list (string * string)) (c : string) :
  rename_label m c = c \/ In (c, rename_label m c) m.
Proof.
  induction m as [|[old new] m IH]; simpl; [now left|].
  destruct (String.eqb_spec c old) as [->|Hne].
  - right. now left.
  - destruct IH as [IH|IH]; [now left | right; now right].
Qed.

Lemma distinct_values (m : list (string * string)) (a b s : string) :
  distinct (map snd m) = true -> In (a, s) m -> In (b, s) m -> a = b.
Proof.
  induction m as [|[k v] m IH]; simpl; [contradiction|].
  intros Hd Ha Hb. apply andb_prop in Hd. destruct Hd as [Hn Hd].
  assert (Hfresh : forall x, In (x, v) m -> False).
  { intros x Hx. apply negb_true_iff in Hn.
    assert (He : existsb (String.eqb v) (map snd m) = true).
    { apply existsb_exists. exists v. split; [|apply String.eqb_refl].
      change v with (snd (x, v)). now apply in_map. }
    congruence. }
  destruct Ha as [Ha|Ha], Hb as [Hb|Hb].
  - congruence.
  - inversion Ha; subst. exfalso. eauto.
  - inversion Hb; subst. exfalso. eauto.
  - eauto.
Qed.

Lemma drop_Timestamp (csv : table) :
  In "Timestamp" (columns csv) ->
  drop ["Timestamp"] csv =
    Done (filter (fun p => negb (existsb (String.eqb (fst p)) ["Timestamp"])) csv).
Proof.
  intros H. unfold drop. simpl forallb.
  apply has_column_In in H. now rewrite H.
Qed.

Lemma columns_filter_subset (f : string * column -> bool) (d : table) (c : string) :
  In c (columns (filter f d)) -> In c (columns d).
Proof.
  unfold columns. rewrite !in_map_iff. intros [p [Hp Hin]].
  apply filter_In in Hin. exists p. tauto.
Qed.

(** After the loader a short name is a label only if it, or its long form, was
    a header of the file. *)
Lemma load_data_columns (csv d : table) (long short : string) :
  In (long, short) rename_columns ->
  load_data csv = Done d ->
  In short (columns d) ->
  In short (columns csv) \/ In long (columns csv).
Proof.
  intros Hm Hl Hin. unfold load_data in Hl.
  destruct (drop ["Timestamp"] csv) as [d0|e] eqn:Hd; [|discriminate].
  inversion Hl; subst d; clear Hl.
  rewrite columns_replace_nan, columns_rename in Hin.
  apply in_map_iff in Hin. destruct Hin as [c [Hc Hin]].
  assert (Hc0 : In c (columns csv)).
  { unfold drop in Hd. destruct (forallb _ _); [|discriminate].
    inversion Hd; subst d0. eapply columns_filter_subset; eauto. }
  destruct (rename_label_cases rename_columns c) as [Hsame|Hren].
  - left. congruence.
  - right. rewrite Hc in Hren.
    assert (c = long) by (eapply distinct_values; eauto; reflexivity).
    now subst.
Qed.

(** ** Running scripts *)

Lemma state_eta (s : state) : {| df := df s; page := page s |} = s.
Proof. now destruct s. Qed.

Ltac unfold_script :=
  cbv beta iota zeta delta
    [bind ret lift emit get_df set_df st_subheader st_write st_pyplot df page].

Ltac tidy_page := repeat rewrite <- app_assoc; simpl app.

Lemma issubset_false (cs : list string) (d : table) (c : string) :
  In c cs -> has_column c d = false -> issubset cs d = false.
Proof.
  intros Hin Hc. unfold issubset.
  destruct (forallb (fun c0 => has_column c0 d) cs) eqn:E; [|reflexivity].
  rewrite forallb_forall in E. specialize (E c Hin). congruence.
Qed.

(** ** Loader: missing markers *)

Lemma filter_isnull_replace (xs : column) :
  filter isnull (map (fun x => if isnull x then Str "0" else x) xs) = [].
Proof.
  induction xs as [|x xs IH]; simpl; [reflexivity|].
  destruct (isnull x) eqn:E; simpl; [assumption|].
  now rewrite E.
Qed.

Lemma isnull_sum_replace (d : table) :
  isnull_sum (replace_nan (Str "0") d) =
  map (fun c => (c, 0)) (columns (replace_nan (Str "0") d)).
Proof.
  unfold isnull_sum, columns, replace_nan. rewrite !map_map.
  apply map_ext. intros [c xs]. simpl.
  now rewrite filter_isnull_replace.
Qed.

(** C3: after the loader no cell is a missing marker: the cells that were
    missing in the file hold the text "0", every other cell is as in the file,
    the count of missing markers is zero in every column, and the Null Values
    step writes that zero for every column. *)
Theorem load_data_no_missing (csv : table) :
  In "Timestamp" (columns csv) ->
  exists d,
    load_data csv = Done d
    /\ map snd d =
       map (fun p => map (fun x => if isnull x then Str "0" else x) (snd p))
           (filter (fun p => negb (existsb (String.eqb (fst p)) ["Timestamp"])) csv)
    /\ (forall c xs x, In (c, xs) d -> In x xs -> isnull x = false)
    /\ isnull_sum d = map (fun c => (c, 0)) (columns d)
    /\ forall pg,
         null_values {| df := d; page := pg |} =
         (Done tt,
          {| df := d;
             page := pg ++ [Subheader "Null Values";
                            WriteCounts (map (fun c => (c, 0)) (columns d))] |}).
Proof.
  intros H. unfold load_data. rewrite (drop_Timestamp csv H).
  eexists. split; [reflexivity|].
  split; [|split; [|split]].
  - unfold replace_nan, rename. rewrite !map_map. reflexivity.
  - intros c xs x Hin Hx. unfold replace_nan in Hin.
    apply in_map_iff in Hin. destruct Hin as [[c0 xs0] [Heq _]].
    simpl in Heq. inversion Heq; subst. apply in_map_iff in Hx.
    destruct Hx as [x0 [Hx0 _]]. destruct (isnull x0) eqn:E; subst; [reflexivity|assumption].
  - apply isnull_sum_replace.
  - intros pg. unfold null_values. unfold_script.
    rewrite isnull_sum_replace. tidy_page. reflexivity.
Qed.

Lemma load_data_no_missing_witness :
  exists d,
    load_data csv_with_gaps = Done d
    /\ map snd d =
       map (fun p => map (fun x => if isnull x then Str "0" else x) (snd p))
           (filter (fun p => negb (existsb (String.eqb (fst p)) ["Timestamp"]))
                   csv_with_gaps)
    /\ (forall c xs x, In (c, xs) d -> In x xs -> isnull x = false)
    /\ isnull_sum d = map (fun c => (c, 0)) (columns d)
    /\ forall pg,
         null_values {| df := d; page := pg |} =
         (Done tt,
          {| df := d;
             page := pg ++ [Subheader "Null Values";
                            WriteCounts (map (fun c => (c, 0)) (columns d))] |}).
Proof.
  apply (load_data_no_missing csv_with_gaps). simpl. left. reflexivity.
Defined.

Example load_data_with_gaps : load_data csv_with_gaps = Done survey_with_gaps.
Proof. reflexivity. Qed.

(** ** Column guards *)

Section Guards.

Variable chi2_contingency : list (list nat) -> outcome R.

Lemma association_test_skipped (x sub sig nosig missing c : string) (s : state) :
  In c [x; "Interaction_Affects"] ->
  has_column c (df s) = false ->
  association_test chi2_contingency x sub sig nosig missing s =
  (Done tt, {| df := df s; page := page s ++ [Subheader sub; WriteText missing] |}).
Proof.
  destruct s as [d pg]. simpl. intros Hin Hc.
  assert (E : has_column x d && has_column "Interaction_Affects" d = false).
  { destruct Hin as [<-|[<-|[]]]; rewrite Hc; [reflexivity | apply andb_false_r]. }
  unfold association_test. unfold_script. rewrite E. tidy_page. reflexivity.
Qed.

Lemma guard_skips (g : guarded) (s : state) (c : string) :
  In c (requires g) ->
  has_column c (df s) = false ->
  run_guarded chi2_contingency g s = (Done tt, skipped g s).
Proof.
  destruct g; simpl run_guarded; simpl requires; intros Hin Hc.
  - destruct Hin as [<-|[]]. destruct s as [d pg]. simpl in Hc.
    unfold outlier_analysis, skipped. unfold_script. rewrite Hc.
    tidy_page. reflexivity.
  - destruct s as [d pg]. simpl in Hc.
    assert (E : has_column "Age" d && has_column "Ave_Weekday_Sleep" d = false).
    { destruct Hin as [<-|[<-|[]]]; rewrite Hc; [reflexivity | apply andb_false_r]. }
    unfold sleep_by_age_group, skipped. unfold_script. rewrite E.
    tidy_page. reflexivity.
  - destruct Hin as [<-|[]]. destruct s as [d pg]. simpl in Hc.
    unfold less_than_6_hours, skipped. unfold_script. rewrite Hc.
    tidy_page. reflexivity.
  - destruct s as [d pg]. simpl in Hc.
    unfold health_issues_report, skipped. unfold_script.
    rewrite (issubset_false _ d c Hin Hc). tidy_page. reflexivity.
  - destruct Hin as [<-|[]]. destruct s as [d pg]. simpl in Hc.
    unfold sleep_health_scatter, skipped. unfold_script. rewrite Hc.
    tidy_page. reflexivity.
  - unfold chi_square_weekday. now apply association_test_skipped with (c := c).
  - unfold chi_square_weekend. now apply association_test_skipped with (c := c).
Qed.

End Guards.

(** ** Loader: renaming *)

(** C6, as stated, fails: the long header of Age is absent from the file, yet
    the short name is a label of the loaded table and the step that tests for
    it is not skipped. *)
Lemma rename_absent_header_counterexample :
  ~ In "What is your age?" (columns csv_short_headers)
  /\ exists d gm,
       load_data csv_short_headers = Done d
       /\ has_column "Age" d = true
       /\ sleep_by_age_group {| df := d; page := [] |} =
          (Done tt,
           {| df := d;
              page := [ Subheader "Average Weekday Sleep by Age Group";
                        Pyplot (Bar gm "Average Weekday Sleep by Age Group"
                                    "Age Group" "Average Weekday Sleep (hours)") ] |}).
Proof.
  split.
  - simpl. intuition discriminate.
  - eexists. eexists. split; [reflexivity|]. split; [reflexivity|].
    unfold sleep_by_age_group. unfold_script. simpl. reflexivity.
Qed.

(** C6, amended: the rename step never fails; a label that is not one of the
    fifteen long headers is left unchanged, and when a long header is absent
    from the file and its short name is not a header of the file either, the
    short name is absent from the loaded table, so that every step that tests
    for it writes its fallback message and leaves the table unchanged. *)
Theorem rename_absent_header
    (chi2_contingency : list (list nat) -> outcome R)
    (csv : table) (long short : string) :
  In (long, short) rename_columns ->
  In "Timestamp" (columns csv) ->
  ~ In long (columns csv) ->
  ~ In short (columns csv) ->
  exists d,
    load_data csv = Done d
    /\ columns d =
       map (rename_label rename_columns)
           (columns (filter (fun p => negb (existsb (String.eqb (fst p)) ["Timestamp"]))
                            csv))
    /\ (forall c, ~ In c (map fst rename_columns) -> rename_label rename_columns c = c)
    /\ has_column short d = false
    /\ forall g pg,
         In short (requires g) ->
         run_guarded chi2_contingency g {| df := d; page := pg |} =
         (Done tt, skipped g {| df := d; page := pg |}).
Proof.
  intros Hm Ht Hlong Hshort.
  destruct (load_data csv) as [d|e] eqn:Hl.
  2:{ unfold load_data in Hl. rewrite (drop_Timestamp csv Ht) in Hl. discriminate. }
  exists d.
  assert (Habs : has_column short d = false).
  { apply has_column_false. intros Hin.
    destruct (load_data_columns csv d long short Hm Hl Hin); contradiction. }
  split; [reflexivity|]. split; [|split; [|split]].
  - unfold load_data in Hl. rewrite (drop_Timestamp csv Ht) in Hl.
    inversion Hl; subst d. now rewrite columns_replace_nan, columns_rename.
  - intros c. apply rename_label_other.
  - exact Habs.
  - intros g pg Hin. now apply guard_skips with (c := short).
Qed.

Lemma rename_absent_header_witness :
  exists d,
    load_data csv_with_gaps = Done d
    /\ columns d =
       map (rename_label rename_columns)
           (columns (filter (fun p => negb (existsb (String.eqb (fst p)) ["Timestamp"]))
                            csv_with_gaps))
    /\ (forall c, ~ In c (map fst rename_columns) -> rename_label rename_columns c = c)
    /\ has_column "ST_Weekday" d = false
    /\ forall g pg,
         In "ST_Weekday" (requires g) ->
         run_guarded (chi2_constant 1) g {| df := d; page := pg |} =
         (Done tt, skipped g {| df := d; page := pg |}).
Proof.
  apply (rename_absent_header (chi2_constant 1) csv_with_gaps long_ST_Weekday "ST_Weekday").
  - simpl. tauto.
  - simpl. tauto.
  - simpl. intuition discriminate.
  - simpl. intuition discriminate.
Defined.

(** ** Reductions over a column of numbers *)

Lemma numbers_finite (vs : list R) : numbers (finite vs) = Done vs.
Proof.
  induction vs as [|v vs IH]; simpl; [reflexivity|].
  fold (finite vs). now rewrite IH.
Qed.

Lemma mean_finite (vs : list R) : mean (finite vs) = Done (nanmean vs).
Proof. unfold mean. now rewrite numbers_finite. Qed.

Lemma std_finite (vs : list R) : std (finite vs) = Done (fsqrt (nanvar 1 vs)).
Proof. unfold std, series_std. now rewrite numbers_finite. Qed.

Lemma extremum_finite fr fs (vs : list R) :
  exists c, extremum fr fs (finite vs) = Done c.
Proof.
  unfold extremum. rewrite numbers_finite. destruct vs; eauto.
Qed.

Lemma compare_series_finite (op : float -> float -> bool) (vs : list R) (b : float) :
  compare_series op (finite vs) b = Done (map (fun v => op (Fin v) b) vs).
Proof.
  induction vs as [|v vs IH]; simpl; [reflexivity|].
  fold (finite vs). now rewrite IH.
Qed.

Lemma lookup_Some_has_column (c : string) (d : table) (xs : column) :
  lookup c d = Some xs -> has_column c d = true.
Proof.
  unfold has_column, columns. induction d as [|[c' ys] d IH]; simpl; [discriminate|].
  destruct (String.eqb c c'); simpl; auto.
Qed.

Lemma lookup_loc_assign (mask : list bool) (c : string) (v : cell) (d : table) :
  lookup c (loc_assign mask c v d) =
  match lookup c d with
  | Some xs => Some (where_assign mask v xs)
  | None => None
  end.
Proof.
  induction d as [|[c' ys] d IH]; simpl; [reflexivity|].
  rewrite (String.eqb_sym c' c).
  destruct (String.eqb c c') eqn:E; simpl; rewrite E; auto.
Qed.

Lemma lookup_loc_assign_other (mask : list bool) (c c0 : string) (v : cell) (d : table) :
  c0 <> c ->
  lookup c0 (loc_assign mask c v d) = lookup c0 d.
Proof.
  intros Hne. induction d as [|[c' ys] d IH]; simpl; [reflexivity|].
  destruct (String.eqb_spec c' c) as [->|Hc]; simpl.
  - destruct (String.eqb_spec c0 c); [contradiction | assumption].
  - now rewrite IH.
Qed.

Lemma columns_loc_assign (mask : list bool) (c : string) (v : cell) (d : table) :
  columns (loc_assign mask c v d) = columns d.
Proof.
  unfold columns, loc_assign. rewrite map_map. apply map_ext.
  intros [c' ys]. simpl. now destruct (String.eqb c' c).
Qed.

Lemma where_assign_cap (b : float) (vs : list R) :
  where_assign (map (fun v => fge (Fin v) b) vs) (Num b) (finite vs) =
  finite (map (cap b) vs).
Proof.
  unfold finite. induction vs as [|v vs IH]; cbn [map where_assign]; [reflexivity|].
  rewrite IH. f_equal.
  destruct b as [u|]; simpl; [|reflexivity].
  unfold Rgeb, Rmin. destruct (Rle_dec u v) as [H|H], (Rle_dec v u) as [H'|H'];
    try reflexivity.
  - do 2 f_equal. lra.
  - exfalso. lra.
Qed.

(** The variance computed by [nanvar] is never negative. *)
Lemma Rsum_squares_nonneg (a : R) (l : list R) :
  (0 <= Rsum (map (fun x => (a - x) * (a - x)) l))%R.
Proof.
  unfold Rsum. induction l as [|x l IH]; simpl; [lra|].
  pose proof (Rle_0_sqr (a - x)) as Hx. unfold Rsqr in Hx. lra.
Qed.

Lemma fsqrt_nanvar (vs : list R) :
  (2 <= length vs)%nat ->
  fsqrt (nanvar 1 vs) = Fin (sample_std vs).
Proof.
  intros Hn. unfold nanvar, sample_std, squared_deviations, arithmetic_mean.
  destruct (Nat.leb_spec (length vs) 1) as [H|H]; [lia|]. simpl fsqrt.
  assert (Hd : (0 < INR (length vs - 1))%R) by (apply lt_0_INR; lia).
  assert (Hs := Rsum_squares_nonneg (Rsum vs / INR (length vs)) vs).
  destruct (Rlt_dec _ 0) as [Hneg|_].
  - exfalso. apply (Rlt_irrefl 0). eapply Rle_lt_trans; [|exact Hneg].
    apply Rmult_le_pos; [assumption|]. left. now apply Rinv_0_lt_compat.
  - do 2 f_equal. rewrite minus_INR by lia. simpl INR. f_equal.
    f_equal. apply map_ext. intros x. ring.
Qed.

Lemma fsqrt_nonneg (a : float) (x : R) : fsqrt a = Fin x -> (0 <= x)%R.
Proof.
  destruct a as [r|]; simpl; [|discriminate].
  destruct (Rlt_dec r 0); [discriminate|].
  intros H. inversion H. apply sqrt_pos.
Qed.

(** ** Outlier step on a column of numbers *)

Lemma upper_limit_small (ws : list R) :
  (length ws < 2)%nat -> upper_limit_of ws = nan.
Proof.
  intros H. unfold upper_limit_of, nanvar.
  destruct (Nat.leb_spec (length ws) 1) as [_|H']; [|lia].
  simpl. now destruct (nanmean ws).
Qed.

Lemma upper_limit_sample (ws : list R) :
  (2 <= length ws)%nat ->
  upper_limit_of ws = Fin (arithmetic_mean ws + 3 * sample_std ws).
Proof.
  intros H. unfold upper_limit_of. rewrite fsqrt_nanvar by exact H.
  destruct ws; [simpl in H; lia | reflexivity].
Qed.

Lemma upper_limit_is_upper_bound (ws : list R) : upper_limit_of ws = upper_bound ws.
Proof.
  unfold upper_bound. destruct (Nat.leb_spec 2 (length ws)) as [H|H].
  - now apply upper_limit_sample.
  - now apply upper_limit_small.
Qed.

Lemma lower_limit_is_lower_bound (ws : list R) : lower_limit_of ws = lower_bound ws.
Proof.
  unfold lower_bound, lower_limit_of. destruct (Nat.leb_spec 2 (length ws)) as [H|H].
  - rewrite fsqrt_nanvar by exact H.
    destruct ws; [simpl in H; lia | reflexivity].
  - unfold nanvar. destruct (Nat.leb_spec (length ws) 1) as [_|H']; [|lia].
    simpl. now destruct (nanmean ws).
Qed.

Lemma mixed_finite (vs : list R) : mixed (finite vs) = false.
Proof.
  unfold mixed. assert (H : existsb is_text (finite vs) = false).
  { unfold finite. induction vs as [|v vs IH]; [reflexivity | exact IH]. }
  rewrite H. apply andb_false_r.
Qed.

Lemma boxplot_finite (vs : list R) : boxplot (finite vs) = Done (Boxplot (finite vs)).
Proof. unfold boxplot. now rewrite mixed_finite. Qed.

Lemma outlier_analysis_numeric (d : table) (pg : list output) (vs : list R) :
  lookup "Ave_Weekday_Sleep" d = Some (finite vs) ->
  exists min_sleep max_sleep,
    series_min (finite vs) = Done min_sleep
    /\ series_max (finite vs) = Done max_sleep
    /\ outlier_analysis {| df := d; page := pg |} =
       (Done tt,
        {| df := clamped vs d;
           page := pg ++
             [ Subheader "Outlier Analysis - Weekday Sleep";
               WriteList "Columns in DataFrame:" (columns d);
               Pyplot (Boxplot (finite vs));
               WriteValue "The Average weekday sleep of the respondents was found to be: "
                          (Num (nanmean vs)) "hrs";
               WriteValue "The Minimum weekday sleep of the respondents was found to be: "
                          min_sleep "hrs";
               WriteValue "The Maximum weekday sleep of the respondents was found to be: "
                          max_sleep "hrs";
               WriteValue "Upper limit for outliers: " (Num (upper_limit_of vs)) "";
               WriteValue "Lower limit for outliers: " (Num (lower_limit_of vs)) "";
               Pyplot (Boxplot (finite (map (cap (upper_limit_of vs)) vs))) ] |}).
Proof.
  intros Hl.
  destruct (extremum_finite Rmin string_min vs) as [mn Hmn].
  destruct (extremum_finite Rmax string_max vs) as [mx Hmx].
  exists mn, mx. split; [exact Hmn|]. split; [exact Hmx|].
  unfold outlier_analysis. unfold_script.
  rewrite (lookup_Some_has_column _ _ _ Hl).
  unfold getitem at 1. rewrite Hl, boxplot_finite.
  rewrite mean_finite. unfold series_min, series_max in *. rewrite Hmn, Hmx.
  rewrite std_finite. unfold series_ge. rewrite compare_series_finite.
  fold (upper_limit_of vs). fold (lower_limit_of vs). fold (clamped vs d).
  unfold getitem. unfold clamped at 1.
  rewrite lookup_loc_assign, Hl, where_assign_cap, boxplot_finite.
  tidy_page. reflexivity.
Qed.

Lemma lookup_clamped (d : table) (vs : list R) :
  lookup "Ave_Weekday_Sleep" d = Some (finite vs) ->
  lookup "Ave_Weekday_Sleep" (clamped vs d) =
  Some (finite (map (cap (upper_limit_of vs)) vs)).
Proof.
  intros Hl. unfold clamped. now rewrite lookup_loc_assign, Hl, where_assign_cap.
Qed.

(** C1: on a column of numbers, in a table of distinct labels, the outlier
    step computes the mean and the standard deviation of the values before
    the clamp; upper = mean + 3 std is the three-sigma upper bound of those
    values, and afterwards every value v of the column is min(v, upper); a
    value below lower = mean - 3 std is left as it is. *)
Theorem outlier_clamp (s : state) (vs : list R) :
  distinct (columns (df s)) = true ->
  lookup "Ave_Weekday_Sleep" (df s) = Some (finite vs) ->
  exists mu sigma s',
    mean (finite vs) = Done mu
    /\ std (finite vs) = Done sigma
    /\ fadd mu (fmul (Fin 3) sigma) = upper_bound vs
    /\ fsub mu (fmul (Fin 3) sigma) = lower_bound vs
    /\ outlier_analysis s = (Done tt, s')
    /\ lookup "Ave_Weekday_Sleep" (df s') =
       Some (finite (map (cap (upper_bound vs)) vs))
    /\ forall v lower,
         lower_bound vs = Fin lower ->
         (v < lower)%R ->
         cap (upper_bound vs) v = v.
Proof.
  destruct s as [d pg]. simpl. intros _ Hl.
  destruct (outlier_analysis_numeric d pg vs Hl) as [mn [mx [_ [_ Hrun]]]].
  exists (nanmean vs), (fsqrt (nanvar 1 vs)). eexists.
  split; [apply mean_finite|]. split; [apply std_finite|].
  split; [apply upper_limit_is_upper_bound|].
  split; [apply lower_limit_is_lower_bound|].
  split; [exact Hrun|]. split.
  - simpl. rewrite <- upper_limit_is_upper_bound. now apply lookup_clamped.
  - intros v lower Hlow Hv. unfold lower_bound in Hlow. unfold upper_bound.
    destruct (2 <=? length vs)%nat; [|discriminate].
    inversion Hlow; subst lower. simpl.
    assert (Hs0 : (0 <= sample_std vs)%R) by (unfold sample_std; apply sqrt_pos).
    apply Rmin_left. lra.
Qed.

(** ** The sixteen respondents *)

Lemma Rsum_sleep16 : Rsum sleep16 = 128%R.
Proof. unfold sleep16, Rsum. simpl. lra. Qed.

Lemma nanmean_sleep16 : nanmean sleep16 = Fin 8.
Proof.
  unfold nanmean. change (length sleep16) with 16%nat.
  rewrite Rsum_sleep16. replace (INR 16) with 16%R by (simpl; lra).
  unfold sleep16; simpl. f_equal. lra.
Qed.

Lemma nanvar_sleep16 : nanvar 1 sleep16 = Fin 16.
Proof.
  unfold nanvar. change (length sleep16) with 16%nat. simpl Nat.leb. cbv zeta.
  rewrite Rsum_sleep16. replace (INR 16) with 16%R by (simpl; lra).
  replace (INR (16 - 1)) with 15%R by (simpl; lra).
  f_equal. unfold sleep16, Rsum. simpl. lra.
Qed.

Lemma upper_limit_sleep16 : upper_limit_of sleep16 = Fin 20.
Proof.
  unfold upper_limit_of. rewrite nanmean_sleep16, nanvar_sleep16. simpl.
  destruct (Rlt_dec 16 0); [exfalso; lra|]. simpl.
  replace 16%R with (4 * 4)%R by lra. rewrite sqrt_square by lra. f_equal. lra.
Qed.

Ltac decide_Rle :=
  repeat match goal with
         | |- context [Rle_dec ?a ?b] => destruct (Rle_dec a b); try (exfalso; lra)
         | |- context [Rlt_dec ?a ?b] => destruct (Rlt_dec a b); try (exfalso; lra)
         end.

Lemma cap_sleep16 :
  map (cap (upper_limit_of sleep16)) sleep16 = (repeat 7 15 ++ [20])%R.
Proof.
  rewrite upper_limit_sleep16. unfold sleep16, cap, Rmin. simpl.
  decide_Rle. reflexivity.
Qed.

Lemma upper_bound_sleep16 : upper_bound sleep16 = Fin 20.
Proof. rewrite <- upper_limit_is_upper_bound. apply upper_limit_sleep16. Qed.

Lemma outlier_clamp_witness :
  exists s',
    outlier_analysis {| df := survey16; page := [] |} = (Done tt, s')
    /\ lookup "Ave_Weekday_Sleep" (df s') = Some (finite (repeat 7 15 ++ [20])%R)
    /\ upper_bound sleep16 = Fin 20.
Proof.
  destruct (outlier_clamp {| df := survey16; page := [] |} sleep16 eq_refl eq_refl)
    as (mu & sigma & s' & _ & _ & _ & _ & Hrun & Hcol & _).
  exists s'. split; [exact Hrun|].
  rewrite <- upper_limit_is_upper_bound, cap_sleep16 in Hcol.
  split; [exact Hcol | exact upper_bound_sleep16].
Defined.

(** ** The standard deviation of the bounds *)

(** C9: the standard deviation behind the bounds is the sample standard
    deviation, divisor n - 1: on a column of n >= 2 numbers, in a table of
    distinct labels, the step writes
    upper = mean + 3 sqrt(sum (v - mean)^2 / (n - 1))
    and clamps to it. *)
Theorem std_is_sample_std (s : state) (vs : list R) :
  distinct (columns (df s)) = true ->
  (2 <= length vs)%nat ->
  lookup "Ave_Weekday_Sleep" (df s) = Some (finite vs) ->
  mean (finite vs) = Done (Fin (arithmetic_mean vs))
  /\ std (finite vs) = Done (Fin (sample_std vs))
  /\ exists s',
       outlier_analysis s = (Done tt, s')
       /\ In (WriteValue "Upper limit for outliers: "
                         (Num (Fin (arithmetic_mean vs + 3 * sample_std vs))) "")
             (page s')
       /\ lookup "Ave_Weekday_Sleep" (df s') =
          Some (finite (map (fun v => Rmin v (arithmetic_mean vs + 3 * sample_std vs)) vs)).
Proof.
  intros _ Hn Hl. destruct s as [d pg]. simpl in Hl.
  assert (Hm : nanmean vs = Fin (arithmetic_mean vs)).
  { destruct vs; [simpl in Hn; lia | reflexivity]. }
  assert (Hu : upper_limit_of vs = Fin (arithmetic_mean vs + 3 * sample_std vs)).
  { unfold upper_limit_of. now rewrite Hm, fsqrt_nanvar. }
  split; [now rewrite mean_finite, Hm|].
  split; [now rewrite std_finite, fsqrt_nanvar|].
  destruct (outlier_analysis_numeric d pg vs Hl) as [mn [mx [_ [_ Hrun]]]].
  eexists. split; [exact Hrun|]. split.
  - simpl. rewrite Hu. apply in_or_app. right. simpl. tauto.
  - simpl. rewrite (lookup_clamped d vs Hl), Hu. reflexivity.
Qed.

Lemma std_is_sample_std_witness :
  mean (finite sleep16) = Done (Fin (arithmetic_mean sleep16))
  /\ std (finite sleep16) = Done (Fin (sample_std sleep16))
  /\ exists s',
       outlier_analysis {| df := survey16; page := [] |} = (Done tt, s')
       /\ In (WriteValue "Upper limit for outliers: "
                         (Num (Fin (arithmetic_mean sleep16 + 3 * sample_std sleep16))) "")
             (page s')
       /\ lookup "Ave_Weekday_Sleep" (df s') =
          Some (finite (map (fun v => Rmin v (arithmetic_mean sleep16
                                              + 3 * sample_std sleep16)) sleep16)).
Proof.
  apply (std_is_sample_std {| df := survey16; page := [] |} sleep16).
  - reflexivity.
  - simpl. lia.
  - reflexivity.
Defined.

(** On the sixteen respondents the two deviations differ: 4 against sqrt 15. *)
Example std_not_population_std :
  std (finite sleep16) = Done (Fin 4)
  /\ std (finite sleep16) <> Done (Fin (population_std sleep16)).
Proof.
  assert (H4 : std (finite sleep16) = Done (Fin 4)).
  { rewrite std_finite, nanvar_sleep16. simpl. decide_Rle.
    replace 16%R with (4 * 4)%R by lra. now rewrite sqrt_square by lra. }
  split; [exact H4|]. rewrite H4. intros H. inversion H as [Hs].
  assert (Hp : population_std sleep16 = sqrt 15).
  { unfold population_std, squared_deviations, arithmetic_mean.
    change (length sleep16) with 16%nat. rewrite Rsum_sleep16.
    replace (INR 16) with 16%R by (simpl; lra). f_equal.
    unfold sleep16, Rsum. simpl. lra. }
  rewrite Hp in Hs.
  assert (H16 : (sqrt 15 * sqrt 15 = 15)%R) by (apply sqrt_sqrt; lra).
  rewrite <- Hs in H16. lra.
Qed.

(** ** Which steps write to [df] *)

Lemma keeps_ret {A} d (a : A) : keeps_df d (ret a).
Proof. intros s H. exact H. Qed.

Lemma keeps_lift {A} d (o : outcome A) : keeps_df d (lift o).
Proof. intros s H. exact H. Qed.

Lemma keeps_emit d (o : output) : keeps_df d (emit o).
Proof. intros s H. exact H. Qed.

Lemma keeps_get_df d : keeps_df d get_df.
Proof. intros s H. exact H. Qed.

Lemma keeps_bind {A B} d (m : script A) (k : A -> script B) :
  keeps_df d m -> (forall a, keeps_df d (k a)) -> keeps_df d (bind m k).
Proof.
  intros Hm Hk s Hs. unfold bind. specialize (Hm s Hs).
  destruct (m s) as [[a|e] s']; simpl in *; [now apply Hk | assumption].
Qed.

Lemma keeps_if {A} d (b : bool) (m1 m2 : script A) :
  keeps_df d m1 -> keeps_df d m2 -> keeps_df d (if b then m1 else m2).
Proof. now destruct b. Qed.

Ltac keeps :=
  repeat first
    [ apply keeps_ret | apply keeps_lift | apply keeps_emit | apply keeps_get_df
    | apply keeps_if | (apply keeps_bind; [|intro]) ].

Lemma keeps_show_raw_data d b : keeps_df d (show_raw_data b).
Proof. unfold show_raw_data. keeps. Qed.

Lemma keeps_data_information d : keeps_df d data_information.
Proof. unfold data_information, st_subheader, st_write. keeps. Qed.

Lemma keeps_basic_information d : keeps_df d basic_information.
Proof. unfold basic_information, st_subheader. keeps. Qed.

Lemma keeps_statistical_summary d : keeps_df d statistical_summary.
Proof. unfold statistical_summary, st_subheader. keeps. Qed.

Lemma keeps_null_values d : keeps_df d null_values.
Proof. unfold null_values, st_subheader. keeps. Qed.

Lemma keeps_correlation_analysis d : keeps_df d correlation_analysis.
Proof. unfold correlation_analysis, st_subheader, st_pyplot. keeps. Qed.

Lemma keeps_sleep_by_age_group d : keeps_df d sleep_by_age_group.
Proof. unfold sleep_by_age_group, st_subheader, st_write, st_pyplot. keeps. Qed.

Lemma keeps_health_issues_report d t : keeps_df d (health_issues_report t).
Proof. unfold health_issues_report, st_write. keeps. Qed.

Lemma keeps_sleep_health_scatter d t : keeps_df d (sleep_health_scatter t).
Proof. unfold sleep_health_scatter, st_subheader, st_write, st_pyplot. keeps. Qed.

Lemma keeps_less_than_6_hours d : keeps_df d less_than_6_hours.
Proof.
  unfold less_than_6_hours, st_subheader, st_write. keeps.
Qed.

Lemma keeps_association_test chi2 d x sub sig nosig missing :
  keeps_df d (association_test chi2 x sub sig nosig missing).
Proof. unfold association_test, st_subheader, st_write. keeps. Qed.

Lemma keeps_outlier_analysis_absent d :
  has_column "Ave_Weekday_Sleep" d = false -> keeps_df d outlier_analysis.
Proof.
  intros Hc s Hs.
  change (df (snd (run_guarded (chi2_constant 1) OutlierAnalysis s)) = d).
  rewrite (guard_skips (chi2_constant 1) OutlierAnalysis s "Ave_Weekday_Sleep");
    [exact Hs | simpl; tauto | now rewrite Hs].
Qed.

(** C10: when Ave_Weekday_Sleep is absent the outlier step is skipped, every
    other step leaves [df] alone on any table, and at the end of the report,
    completed or aborted, [df] is the table the report started from. *)
Theorem table_untouched_without_sleep_column
    (chi2_contingency : list (list nat) -> outcome R) (checkbox : bool) (s : state) :
  has_column "Ave_Weekday_Sleep" (df s) = false ->
  df (snd (report chi2_contingency checkbox s)) = df s
  /\ outlier_analysis s = (Done tt, skipped OutlierAnalysis s)
  /\ forall d,
       keeps_df d (show_raw_data checkbox)
       /\ keeps_df d data_information
       /\ keeps_df d basic_information
       /\ keeps_df d statistical_summary
       /\ keeps_df d null_values
       /\ keeps_df d correlation_analysis
       /\ keeps_df d sleep_by_age_group
       /\ keeps_df d less_than_6_hours
       /\ keeps_df d (chi_square_weekday chi2_contingency)
       /\ keeps_df d (chi_square_weekend chi2_contingency).
Proof.
  intros Hc.
  assert (Hall : forall d,
       keeps_df d (show_raw_data checkbox)
       /\ keeps_df d data_information
       /\ keeps_df d basic_information
       /\ keeps_df d statistical_summary
       /\ keeps_df d null_values
       /\ keeps_df d correlation_analysis
       /\ keeps_df d sleep_by_age_group
       /\ keeps_df d less_than_6_hours
       /\ keeps_df d (chi_square_weekday chi2_contingency)
       /\ keeps_df d (chi_square_weekend chi2_contingency)).
  { intros d. repeat split;
      auto using keeps_show_raw_data, keeps_data_information, keeps_basic_information,
        keeps_statistical_summary, keeps_null_values, keeps_correlation_analysis,
        keeps_sleep_by_age_group, keeps_less_than_6_hours;
      apply keeps_association_test. }
  split; [|split; [|exact Hall]].
  - assert (K : keeps_df (df s) (report chi2_contingency checkbox)).
    { destruct (Hall (df s)) as (H1 & H2 & H3 & H4 & H5 & H6 & H7 & H8 & H9 & H10).
      unfold report.
      do 10 (apply keeps_bind;
             [first [assumption | now apply keeps_outlier_analysis_absent] | intros _]).
      assumption. }
    now apply K.
  - apply (guard_skips chi2_contingency OutlierAnalysis s "Ave_Weekday_Sleep");
      [simpl; tauto | exact Hc].
Qed.

Lemma table_untouched_without_sleep_column_witness :
  df (snd (report (chi2_constant 1) true {| df := survey_no_sleep; page := [] |})) =
  survey_no_sleep.
Proof.
  assert (H : has_column "Ave_Weekday_Sleep" survey_no_sleep = false) by reflexivity.
  exact (proj1 (table_untouched_without_sleep_column (chi2_constant 1) true
                  {| df := survey_no_sleep; page := [] |} H)).
Defined.

(** ** Text in the sleep column *)


Lemma describe_nonempty (d : table) :
  d <> [] -> describe d = Done (WriteDescribe d).
Proof. destruct d; [contradiction | reflexivity]. Qed.







Example text_column_report :
  fst (report (chi2_constant 1) false {| df := survey_with_gaps; page := [] |}) =
  Raised TypeError.
Proof. reflexivity. Qed.

(** ** The order of group keys *)

Lemma ascii_compare_refl (a : ascii) : Ascii.compare a a = Eq.
Proof. unfold Ascii.compare. apply N.compare_refl. Qed.

Lemma ascii_compare_lt_trans (a b c : ascii) :
  Ascii.compare a b = Lt -> Ascii.compare b c = Lt -> Ascii.compare a c = Lt.
Proof.
  unfold Ascii.compare. rewrite !N.compare_lt_iff. apply N.lt_trans.
Qed.

Lemma string_compare_refl (s : string) : String.compare s s = Eq.
Proof.
  induction s as [|a s IH]; simpl; [reflexivity|].
  now rewrite ascii_compare_refl.
Qed.

Lemma string_compare_lt_trans (s t u : string) :
  String.compare s t = Lt -> String.compare t u = Lt -> String.compare s u = Lt.
Proof.
  revert t u. induction s as [|a s IH]; intros [|b t] [|c u]; simpl;
    try discriminate; try reflexivity.
  destruct (Ascii.compare a b) eqn:Eab; try discriminate;
    destruct (Ascii.compare b c) eqn:Ebc; try discriminate.
  - apply Ascii.compare_eq_iff in Eab. apply Ascii.compare_eq_iff in Ebc. subst.
    rewrite ascii_compare_refl. apply IH.
  - apply Ascii.compare_eq_iff in Eab. subst. now rewrite Ebc.
  - apply Ascii.compare_eq_iff in Ebc. subst. now rewrite Eab.
  - now rewrite (ascii_compare_lt_trans a b c Eab Ebc).
Qed.

Lemma Rcompare_refl (x : R) : Rcompare x x = Eq.
Proof. destruct (Rcompare_spec x x); [reflexivity | exfalso; lra | exfalso; lra]. Qed.

Lemma Rcompare_antisym (x y : R) : Rcompare x y = CompOpp (Rcompare y x).
Proof.
  destruct (Rcompare_spec x y), (Rcompare_spec y x); simpl; try reflexivity;
    exfalso; lra.
Qed.

Lemma Rcompare_lt (x y : R) : Rcompare x y = Lt <-> (x < y)%R.
Proof.
  destruct (Rcompare_spec x y); split; intros; try discriminate; try reflexivity;
    try assumption; exfalso; lra.
Qed.

Lemma cell_compare_eq (a b : cell) : cell_compare a b = Eq -> a = b.
Proof.
  destruct a as [[x|]|s], b as [[y|]|t]; simpl; try discriminate; try reflexivity.
  - destruct (Rcompare_spec x y); try discriminate. now subst.
  - intros H. apply String.compare_eq_iff in H. now subst.
Qed.

Lemma cell_compare_refl (a : cell) : cell_compare a a = Eq.
Proof.
  destruct a as [[x|]|s]; simpl;
    [apply Rcompare_refl | reflexivity | apply string_compare_refl].
Qed.

Lemma cell_compare_antisym (a b : cell) :
  cell_compare a b = CompOpp (cell_compare b a).
Proof.
  destruct a as [[x|]|s], b as [[y|]|t]; simpl; try reflexivity.
  - apply Rcompare_antisym.
  - apply String.compare_antisym.
Qed.

Lemma cell_lt_trans (a b c : cell) : cell_lt a b -> cell_lt b c -> cell_lt a c.
Proof.
  unfold cell_lt.
  destruct a as [[x|]|s], b as [[y|]|t], c as [[z|]|u]; simpl;
    try discriminate; try reflexivity.
  - rewrite !Rcompare_lt. apply Rlt_trans.
  - apply string_compare_lt_trans.
Qed.

Lemma cell_lt_irrefl (a : cell) : ~ cell_lt a a.
Proof. unfold cell_lt. rewrite cell_compare_refl. discriminate. Qed.

Lemma cell_eqb_eq (a b : cell) : cell_eqb a b = true <-> a = b.
Proof.
  unfold cell_eqb. split.
  - destruct (cell_compare a b) eqn:E; try discriminate. intros _.
    now apply cell_compare_eq.
  - intros ->. now rewrite cell_compare_refl.
Qed.

Lemma cell_compare_gt (a b : cell) : cell_compare a b = Gt -> cell_lt b a.
Proof.
  unfold cell_lt. rewrite (cell_compare_antisym b a). now intros ->.
Qed.

(** ** Groups *)

Lemma add_row_keys (k v : cell) (g : list (cell * column)) (k0 : cell) :
  In k0 (map fst (add_row k v g)) <-> k0 = k \/ In k0 (map fst g).
Proof.
  induction g as [|[k' vs] g IH]; simpl.
  - intuition.
  - destruct (cell_compare k k') eqn:E; simpl.
    + apply cell_compare_eq in E. subst. intuition.
    + intuition.
    + rewrite IH. intuition.
Qed.

Lemma add_row_sorted (k v : cell) (g : list (cell * column)) :
  StronglySorted cell_lt (map fst g) ->
  StronglySorted cell_lt (map fst (add_row k v g)).
Proof.
  induction g as [|[k' vs] g IH]; simpl; intros Hs.
  - constructor; constructor.
  - inversion Hs as [|? ? Hs' Hall]; subst.
    destruct (cell_compare k k') eqn:E; simpl.
    + exact Hs.
    + constructor; [exact Hs|]. constructor; [exact E|].
      eapply Forall_impl; [|exact Hall]. intros c Hc.
      now apply cell_lt_trans with k'.
    + constructor; [now apply IH|].
      apply Forall_forall. intros c Hc. apply add_row_keys in Hc.
      destruct Hc as [->|Hc]; [now apply cell_compare_gt|].
      rewrite Forall_forall in Hall. now apply Hall.
Qed.

Lemma sorted_not_in (k : cell) (l : list cell) :
  Forall (cell_lt k) l -> ~ In k l.
Proof.
  intros Hall Hin. rewrite Forall_forall in Hall.
  exact (cell_lt_irrefl k (Hall k Hin)).
Qed.

(** What a group of [add_row k v g] is, for sorted [g]. *)
Lemma add_row_In (k v : cell) (g : list (cell * column)) (k0 : cell) (vs : column) :
  StronglySorted cell_lt (map fst g) ->
  In (k0, vs) (add_row k v g) ->
  (k0 = k /\ ((~ In k (map fst g) /\ vs = [v])
              \/ exists vs', In (k, vs') g /\ vs = v :: vs'))
  \/ (k0 <> k /\ In (k0, vs) g).
Proof.
  induction g as [|[k' ws] g IH]; simpl; intros Hs Hin.
  - destruct Hin as [Hin|[]]. inversion Hin; subst. left. split; [reflexivity|].
    left. split; [tauto | reflexivity].
  - inversion Hs as [|? ? Hs' Hall]; subst.
    assert (Hk' : ~ In k' (map fst g)) by now apply sorted_not_in.
    destruct (cell_compare k k') eqn:E.
    + apply cell_compare_eq in E. subst k'. destruct Hin as [Hin|Hin].
      * inversion Hin; subst. left. split; [reflexivity|]. right. eauto.
      * right. split; [|now right]. intros ->. apply Hk'.
        change k with (fst (k, vs)). now apply in_map.
    + assert (Hnk : ~ In k (map fst ((k', ws) :: g))).
      { apply sorted_not_in. simpl. constructor; [exact E|].
        eapply Forall_impl; [|exact Hall]. intros c Hc.
        now apply cell_lt_trans with k'. }
      destruct Hin as [Hin|Hin].
      * inversion Hin; subst. left. split; [reflexivity|]. left. now split.
      * right. split; [|exact Hin]. intros ->. apply Hnk.
        change k with (fst (k, vs)). now apply in_map.
    + destruct Hin as [Hin|Hin].
      * inversion Hin; subst. right. split; [|now left].
        intros ->. rewrite cell_compare_refl in E. discriminate.
      * destruct (IH Hs' Hin) as [[-> [[Hn ->]|[vs' [Hin' ->]]]]|[Hne Hin']].
        -- left. split; [reflexivity|]. left. split; [|reflexivity].
           intros [->|Hc]; [|contradiction].
           rewrite cell_compare_refl in E. discriminate.
        -- left. split; [reflexivity|]. right. eauto.
        -- right. split; [exact Hne | now right].
Qed.

Lemma groups_sorted (keys vals : column) :
  StronglySorted cell_lt (map fst (groups keys vals)).
Proof.
  revert vals. induction keys as [|k keys IH]; intros [|v vals]; simpl;
    try constructor.
  destruct (isnull k); [apply IH | apply add_row_sorted, IH].
Qed.

Lemma groups_keys (keys vals : column) (k0 : cell) :
  In k0 (map fst (groups keys vals)) <->
  In k0 (map fst (combine keys vals)) /\ isnull k0 = false.
Proof.
  revert vals. induction keys as [|k keys IH]; intros [|v vals]; simpl;
    try tauto.
  destruct (isnull k) eqn:E.
  - rewrite IH. split; [tauto|]. intros [[->|H] Hn]; [congruence | tauto].
  - rewrite add_row_keys, IH. split.
    + intros [->|[H Hn]]; tauto.
    + intros [[->|H] Hn]; tauto.
Qed.

Lemma rows_of_absent {A} (k : cell) (keys : column) (vals : list A) :
  ~ In k (map fst (combine keys vals)) -> rows_of k keys vals = [].
Proof.
  revert vals. induction keys as [|k' keys IH]; intros [|v vals]; simpl;
    try reflexivity.
  intros H. destruct (cell_eqb k' k) eqn:E.
  - apply cell_eqb_eq in E. tauto.
  - apply IH. tauto.
Qed.

Lemma rows_of_present {A} (k : cell) (keys : column) (vals : list A) :
  In k (map fst (combine keys vals)) -> rows_of k keys vals <> [].
Proof.
  revert vals. induction keys as [|k' keys IH]; intros [|v vals]; simpl;
    try contradiction.
  intros [->|H].
  - now rewrite (proj2 (cell_eqb_eq k k) eq_refl).
  - destruct (cell_eqb k' k); [discriminate | now apply IH].
Qed.

Lemma groups_rows (keys vals : column) (k0 : cell) (vs : column) :
  In (k0, vs) (groups keys vals) -> vs = rows_of k0 keys vals.
Proof.
  revert vals vs. induction keys as [|k keys IH]; intros [|v vals] vs; simpl;
    try contradiction.
  destruct (isnull k) eqn:En.
  - intros Hin. assert (Hk0 : isnull k0 = false).
    { apply (groups_keys keys vals k0). change k0 with (fst (k0, vs)).
      now apply in_map. }
    destruct (cell_eqb k k0) eqn:E; [|now apply IH].
    apply cell_eqb_eq in E. congruence.
  - intros Hin.
    destruct (add_row_In k v _ k0 vs (groups_sorted keys vals) Hin)
      as [[-> [[Hn ->]|[vs' [Hin' ->]]]]|[Hne Hin']].
    + rewrite (proj2 (cell_eqb_eq k k) eq_refl). f_equal. symmetry.
      apply rows_of_absent. intros Hc. apply Hn. apply groups_keys. now split.
    + rewrite (proj2 (cell_eqb_eq k k) eq_refl). f_equal. now apply IH.
    + destruct (cell_eqb k k0) eqn:E; [|now apply IH].
      apply cell_eqb_eq in E. congruence.
Qed.

Lemma rows_of_finite (k : cell) (keys : column) (ws : list R) :
  rows_of k keys (finite ws) = finite (rows_of k keys ws).
Proof.
  unfold finite. revert ws. induction keys as [|k' keys IH]; intros [|w ws]; simpl;
    try reflexivity.
  destruct (cell_eqb k' k); simpl; now rewrite IH.
Qed.

Lemma agg_mean_finite (g : list (cell * column)) :
  (forall k vs, In (k, vs) g -> exists l, vs = finite l) ->
  exists r,
    agg_mean g = Done r
    /\ map fst r = map fst g
    /\ forall k m, In (k, m) r -> exists l, In (k, finite l) g /\ m = nanmean l.
Proof.
  induction g as [|[k vs] g IH]; simpl; intros Hfin.
  - exists []. repeat split. simpl. contradiction.
  - destruct (Hfin k vs (or_introl eq_refl)) as [l ->].
    destruct IH as [r [Hr [Hk Hm]]]; [intros; eapply Hfin; eauto|].
    rewrite mean_finite, Hr. eexists. split; [reflexivity|]. split.
    + simpl. now rewrite Hk.
    + intros k0 m [Hin|Hin].
      * inversion Hin; subst. eauto.
      * destruct (Hm k0 m Hin) as [l0 [Hl0 ->]]. eauto.
Qed.

(** ** Mean sleep by age group *)

Lemma map_fst_combine {A B} (l : list A) (l' : list B) :
  length l = length l' -> map fst (combine l l') = l.
Proof.
  revert l'. induction l as [|a l IH]; intros [|b l']; simpl; try discriminate;
    [reflexivity|]. intros H. f_equal. apply IH. now inversion H.
Qed.

Lemma finite_inj (l l' : list R) : finite l = finite l' -> l = l'.
Proof.
  unfold finite. revert l'. induction l as [|x l IH]; intros [|y l'] H;
    simpl in H; try discriminate; [reflexivity|].
  inversion H. f_equal. now apply IH.
Qed.

Lemma sorted_NoDup (l : list cell) : StronglySorted cell_lt l -> NoDup l.
Proof.
  induction 1 as [|a l Hs IH Hall]; constructor; [|exact IH].
  now apply sorted_not_in.
Qed.

Lemma cell_lt_text (s t : string) :
  cell_lt (Str s) (Str t) <-> String.ltb s t = true.
Proof.
  unfold cell_lt, String.ltb. simpl.
  destruct (String.compare s t); split; intros; congruence.
Qed.

Lemma cell_lt_number (x y : R) : cell_lt (Num (Fin x)) (Num (Fin y)) <-> (x < y)%R.
Proof. unfold cell_lt. simpl. apply Rcompare_lt. Qed.

Lemma cell_lt_number_text (x : R) (t : string) : cell_lt (Num (Fin x)) (Str t).
Proof. reflexivity. Qed.

(** C8: when Age and Ave_Weekday_Sleep exist (the latter a column of numbers),
    in a table of distinct labels, the step draws one bar per distinct age
    value, in ascending order of the age values, and the height of the bar of
    an age is the arithmetic mean of the sleep values of the rows with that
    age. *)
Theorem sleep_by_age_group_means (s : state) (ages : column) (ws : list R) :
  distinct (columns (df s)) = true ->
  lookup "Age" (df s) = Some ages ->
  lookup "Ave_Weekday_Sleep" (df s) = Some (finite ws) ->
  length ages = length ws ->
  exists age_group_means,
    sleep_by_age_group s =
    (Done tt,
     {| df := df s;
        page := page s ++
          [ Subheader "Average Weekday Sleep by Age Group";
            Pyplot (Bar age_group_means "Average Weekday Sleep by Age Group"
                        "Age Group" "Average Weekday Sleep (hours)") ] |})
    /\ StronglySorted cell_lt (map fst age_group_means)
    /\ NoDup (map fst age_group_means)
    /\ (forall k, In k (map fst age_group_means) <-> In k ages /\ isnull k = false)
    /\ (forall k m, In (k, m) age_group_means ->
                    m = Fin (arithmetic_mean (rows_of k ages ws))).
Proof.
  destruct s as [d pg]. simpl. intros _ Ha Hw Hlen.
  assert (Hlen' : length ages = length (finite ws)).
  { unfold finite. now rewrite length_map. }
  destruct (agg_mean_finite (groups ages (finite ws))) as [r [Hr [Hk Hm]]].
  { intros k vs Hin. apply groups_rows in Hin. subst vs.
    rewrite rows_of_finite. eauto. }
  exists r. split; [|split; [|split; [|split]]].
  - unfold sleep_by_age_group. unfold_script.
    rewrite (lookup_Some_has_column _ _ _ Ha), (lookup_Some_has_column _ _ _ Hw).
    unfold groupby_mean, getitem. rewrite Ha, Hw, Hr.
    simpl. tidy_page. reflexivity.
  - rewrite Hk. apply groups_sorted.
  - rewrite Hk. apply sorted_NoDup, groups_sorted.
  - intros k. rewrite Hk, groups_keys, (map_fst_combine _ _ Hlen'). reflexivity.
  - intros k m Hin. destruct (Hm k m Hin) as [l [Hl ->]].
    assert (Hkey : In k (map fst (groups ages (finite ws)))).
    { change k with (fst (k, finite l)). now apply in_map. }
    apply groups_rows in Hl. rewrite rows_of_finite in Hl.
    apply finite_inj in Hl. subst l. apply groups_keys in Hkey. destruct Hkey as [Hkey _].
    assert (Hne : rows_of k ages ws <> []).
    { intros E. apply (rows_of_present k ages (finite ws) Hkey).
      rewrite rows_of_finite, E. reflexivity. }
    unfold nanmean. destruct (rows_of k ages ws); [contradiction | reflexivity].
Qed.

Lemma sleep_by_age_group_means_witness :
  exists age_group_means,
    sleep_by_age_group {| df := survey16; page := [] |} =
    (Done tt,
     {| df := survey16;
        page := [] ++
          [ Subheader "Average Weekday Sleep by Age Group";
            Pyplot (Bar age_group_means "Average Weekday Sleep by Age Group"
                        "Age Group" "Average Weekday Sleep (hours)") ] |})
    /\ StronglySorted cell_lt (map fst age_group_means)
    /\ NoDup (map fst age_group_means)
    /\ (forall k, In k (map fst age_group_means) <->
                  In k (repeat (Str "25-34") 8 ++ repeat (Str "18-24") 8)
                  /\ isnull k = false)
    /\ (forall k m, In (k, m) age_group_means ->
                    m = Fin (arithmetic_mean
                               (rows_of k (repeat (Str "25-34") 8 ++ repeat (Str "18-24") 8)
                                        sleep16))).
Proof.
  apply (sleep_by_age_group_means {| df := survey16; page := [] |}
           (repeat (Str "25-34") 8 ++ repeat (Str "18-24") 8) sleep16);
    reflexivity.
Defined.

(** On the sixteen respondents the bars follow the age labels, not the row
    order and not the heights. *)
Example age_group_means_survey16 :
  groupby_mean "Age" "Ave_Weekday_Sleep" survey16 =
  Done [ (Str "18-24", Fin 9); (Str "25-34", Fin 7) ].
Proof.
  unfold groupby_mean, survey16, sleep16. simpl.
  do 3 f_equal; [|f_equal]; do 2 f_equal; lra.
Qed.

(** ** Association tests *)

Lemma list_sum_map_add {A} (f g : A -> nat) (l : list A) :
  list_sum (map (fun a => f a + g a) l) = list_sum (map f l) + list_sum (map g l).
Proof. induction l as [|a l IH]; simpl; [reflexivity | rewrite IH; lia]. Qed.

Lemma list_sum_map_zero {A} (l : list A) : list_sum (map (fun _ => 0) l) = 0.
Proof. induction l; simpl; auto. Qed.

Lemma indicator_sum_absent (y : cell) (l : list cell) :
  ~ In y l -> list_sum (map (fun c => if cell_eqb y c then 1 else 0) l) = 0.
Proof.
  induction l as [|c l IH]; simpl; [reflexivity|]. intros H.
  destruct (cell_eqb y c) eqn:E.
  - apply cell_eqb_eq in E. subst. tauto.
  - apply IH. tauto.
Qed.

Lemma indicator_sum (y : cell) (l : list cell) :
  NoDup l -> In y l -> list_sum (map (fun c => if cell_eqb y c then 1 else 0) l) = 1.
Proof.
  induction 1 as [|c l Hn Hd IH]; simpl; [contradiction|]. intros [->|Hin].
  - rewrite (proj2 (cell_eqb_eq y y) eq_refl), indicator_sum_absent; auto.
  - destruct (cell_eqb y c) eqn:E.
    + apply cell_eqb_eq in E. subst. contradiction.
    + now apply IH.
Qed.

Lemma count_pairs_total (rs cs : list cell) (rows : list (cell * cell)) :
  NoDup rs -> NoDup cs ->
  (forall p, In p rows -> In (fst p) rs /\ In (snd p) cs) ->
  list_sum (map (fun r => list_sum (map (fun c => count_pairs r c rows) cs)) rs) =
  length rows.
Proof.
  intros Hr Hc. induction rows as [|[x y] rows IH]; intros Hin.
  - simpl. erewrite map_ext; [apply list_sum_map_zero|].
    intros r. apply list_sum_map_zero.
  - cbn [count_pairs length].
    erewrite map_ext; [|intros r; apply list_sum_map_add].
    rewrite list_sum_map_add, IH by (intros p Hp; apply Hin; now right).
    destruct (Hin (x, y) (or_introl eq_refl)) as [Hx Hy]. simpl in Hx, Hy.
    erewrite map_ext with (g := fun r => if cell_eqb x r then 1 else 0).
    + now rewrite indicator_sum.
    + intros r. destruct (cell_eqb x r); simpl.
      * now apply indicator_sum.
      * apply list_sum_map_zero.
Qed.

Lemma count_pairs_filter (r c : cell) (rows : list (cell * cell)) :
  count_pairs r c rows =
  length (filter (fun p => cell_eqb (fst p) r && cell_eqb (snd p) c) rows).
Proof.
  induction rows as [|[x y] rows IH]; simpl; [reflexivity|].
  rewrite IH. now destruct (cell_eqb x r && cell_eqb y c).
Qed.

Lemma filter_no_nulls (a b : column) :
  Forall (fun x => isnull x = false) a ->
  Forall (fun x => isnull x = false) b ->
  filter (fun p => negb (isnull (fst p)) && negb (isnull (snd p))) (combine a b) =
  combine a b.
Proof.
  intros Ha. revert b. induction Ha as [|x a Hx Ha IH]; intros b Hb; [reflexivity|].
  destruct Hb as [|y b Hy Hb]; [reflexivity|]. simpl.
  rewrite Hx, Hy. simpl. now rewrite IH.
Qed.

Lemma map_snd_combine {A B} (l : list A) (l' : list B) :
  length l = length l' -> map snd (combine l l') = l'.
Proof.
  revert l'. induction l as [|a l IH]; intros [|b l']; simpl; try discriminate;
    [reflexivity|]. intros H. f_equal. apply IH. now inversion H.
Qed.

Lemma uniques_sorted (xs : column) : StronglySorted cell_lt (uniques xs).
Proof. apply groups_sorted. Qed.

Lemma uniques_In (xs : column) (k : cell) :
  In k (uniques xs) <-> In k xs /\ isnull k = false.
Proof.
  unfold uniques. now rewrite groups_keys, map_fst_combine.
Qed.

Lemma Rltb_lt (p q : R) : Rltb p q = true <-> (p < q)%R.
Proof. unfold Rltb. destruct (Rlt_dec p q); split; intros; congruence. Qed.

Section AssociationTests.

Variable chi2_contingency : list (list nat) -> outcome R.

Lemma association_test_runs (x sub sig nosig missing : string) (s : state)
    (a b : column) :
  lookup x (df s) = Some a ->
  lookup "Interaction_Affects" (df s) = Some b ->
  association_test chi2_contingency x sub sig nosig missing s =
  match chi2_contingency (crosstab a b) with
  | Done p =>
      (Done tt,
       {| df := df s;
          page := page s ++ [ Subheader sub;
                              WriteValue "p-value is: " (Num (Fin p)) "";
                              WriteText (if Rltb p 0.05 then sig else nosig) ] |})
  | Raised e => (Raised e, {| df := df s; page := page s ++ [Subheader sub] |})
  end.
Proof.
  destruct s as [d pg]. simpl. intros Ha Hb.
  unfold association_test. unfold_script.
  rewrite (lookup_Some_has_column _ _ _ Ha), (lookup_Some_has_column _ _ _ Hb).
  unfold getitem. rewrite Ha, Hb. simpl.
  destruct (chi2_contingency (crosstab a b)) as [p|e]; [|reflexivity].
  destruct (Rltb p 0.05); tidy_page; reflexivity.
Qed.

(** C5: when both columns of a test exist, in a table of distinct labels, the
    step cross-tabulates them (one row per distinct first value, one column
    per distinct second value, each entry the number of rows with that pair,
    all rows counted once), hands the table to the chi-square test, writes
    the p-value it gets and then the significant message exactly when
    p < 0.05, the other message otherwise. *)
Theorem chi_square_tests (s : state) (b : column) :
  distinct (columns (df s)) = true ->
  lookup "Interaction_Affects" (df s) = Some b ->
  (forall a, lookup "ST_Weekday" (df s) = Some a ->
     chi_square_weekday chi2_contingency s =
     match chi2_contingency (crosstab a b) with
     | Done p =>
         (Done tt,
          {| df := df s;
             page := page s ++
               [ Subheader "Impact of Screentime on Social Interaction (Weekday)";
                 WriteValue "p-value is: " (Num (Fin p)) "";
                 WriteText (if Rltb p 0.05 then msg_weekday_significant
                        else msg_weekday_not_significant) ] |})
     | Raised e =>
         (Raised e,
          {| df := df s;
             page := page s ++
               [ Subheader "Impact of Screentime on Social Interaction (Weekday)" ] |})
     end)
  /\ (forall a, lookup "ST_Weekend" (df s) = Some a ->
     chi_square_weekend chi2_contingency s =
     match chi2_contingency (crosstab a b) with
     | Done p =>
         (Done tt,
          {| df := df s;
             page := page s ++
               [ Subheader "Impact of Screentime on Social Interaction (Weekend)";
                 WriteValue "p-value is: " (Num (Fin p)) "";
                 WriteText (if Rltb p 0.05 then msg_weekend_significant
                        else msg_weekend_not_significant) ] |})
     | Raised e =>
         (Raised e,
          {| df := df s;
             page := page s ++
               [ Subheader "Impact of Screentime on Social Interaction (Weekend)" ] |})
     end)
  /\ (forall p, Rltb p 0.05 = true <-> (p < 0.05)%R)
  /\ msg_weekday_significant <> msg_weekday_not_significant
  /\ msg_weekend_significant <> msg_weekend_not_significant
  /\ (forall a,
        Forall (fun x => isnull x = false) a ->
        Forall (fun x => isnull x = false) b ->
        length a = length b ->
        crosstab a b =
          map (fun r => map (fun c => joint_count r c a b) (uniques b)) (uniques a)
        /\ StronglySorted cell_lt (uniques a)
        /\ StronglySorted cell_lt (uniques b)
        /\ (forall k, In k (uniques a) <-> In k a)
        /\ (forall k, In k (uniques b) <-> In k b)
        /\ grand_total (crosstab a b) = length a).
Proof.
  intros _ Hb. split; [|split; [|split; [|split; [|split]]]].
  - intros a Ha. unfold chi_square_weekday. now apply association_test_runs.
  - intros a Ha. unfold chi_square_weekend. now apply association_test_runs.
  - intros p. apply Rltb_lt.
  - discriminate.
  - discriminate.
  - intros a Hna Hnb Hlen.
    assert (Hka : forall k, In k (uniques a) <-> In k a).
    { intros k. rewrite uniques_In. split; [tauto|]. intros H. split; [exact H|].
      rewrite Forall_forall in Hna. now apply Hna. }
    assert (Hkb : forall k, In k (uniques b) <-> In k b).
    { intros k. rewrite uniques_In. split; [tauto|]. intros H. split; [exact H|].
      rewrite Forall_forall in Hnb. now apply Hnb. }
    assert (Hc : crosstab a b =
              map (fun r => map (fun c => count_pairs r c (combine a b)) (uniques b))
                  (uniques a)).
    { unfold crosstab. rewrite (filter_no_nulls a b Hna Hnb).
      now rewrite map_fst_combine, map_snd_combine. }
    split; [|split; [|split; [|split; [|split]]]];
      try apply uniques_sorted; try assumption.
    + rewrite Hc. apply map_ext. intros r. apply map_ext. intros c.
      apply count_pairs_filter.
    + rewrite Hc. unfold grand_total. rewrite map_map.
      rewrite count_pairs_total.
      * rewrite length_combine, <- Hlen. apply Nat.min_id.
      * apply sorted_NoDup, uniques_sorted.
      * apply sorted_NoDup, uniques_sorted.
      * intros [x y] Hp. simpl. rewrite Hka, Hkb. split.
        -- eapply in_combine_l; eauto.
        -- eapply in_combine_r; eauto.
Qed.

End AssociationTests.

Lemma chi_square_tests_witness :
  chi_square_weekday (chi2_constant (1 / 100)) {| df := survey_screentime; page := [] |} =
  (Done tt,
   {| df := survey_screentime;
      page := [ Subheader "Impact of Screentime on Social Interaction (Weekday)";
                WriteValue "p-value is: " (Num (Fin (1 / 100))) "";
                WriteText msg_weekday_significant ] |})
  /\ chi_square_weekend (chi2_constant (1 / 2)) {| df := survey_screentime; page := [] |} =
  (Done tt,
   {| df := survey_screentime;
      page := [ Subheader "Impact of Screentime on Social Interaction (Weekend)";
                WriteValue "p-value is: " (Num (Fin (1 / 2))) "";
                WriteText msg_weekend_not_significant ] |})
  /\ crosstab [Str "1-2"; Str "3-4"; Str "1-2"; Str "3-4"]
              [Str "No"; Str "Yes"; Str "No"; Str "Yes"] = [[2; 0]; [0; 2]]
  /\ crosstab [Str "3-4"; Str "5+"; Str "5+"; Str "5+"]
              [Str "No"; Str "Yes"; Str "No"; Str "Yes"] = [[1; 0]; [1; 2]].
Proof.
  pose (s := {| df := survey_screentime; page := [] |}).
  pose (b := [Str "No"; Str "Yes"; Str "No"; Str "Yes"]).
  destruct (chi_square_tests (chi2_constant (1 / 100)) s b eq_refl eq_refl) as [Hwd _].
  destruct (chi_square_tests (chi2_constant (1 / 2)) s b eq_refl eq_refl)
    as [_ [Hwe _]].
  split; [|split; [|split]].
  - fold s. rewrite (Hwd _ eq_refl). unfold chi2_constant, Rltb. simpl.
    destruct (Rlt_dec (1 / 100) 0.05); [reflexivity | exfalso; lra].
  - fold s. rewrite (Hwe _ eq_refl). unfold chi2_constant, Rltb. simpl.
    destruct (Rlt_dec (1 / 2) 0.05); [exfalso; lra | reflexivity].
  - reflexivity.
  - reflexivity.
Defined.

(** ** The nested guards of the short-sleepers step *)

Lemma less_than_6_hours_without_health_effects (s : state) (y : column)
    (mask : list bool) :
  has_column "Health_Effects" (df s) = false ->
  lookup "Ave_Weekday_Sleep" (df s) = Some y ->
  series_lt y (Fin 6) = Done mask ->
  less_than_6_hours s =
  (Done tt,
   {| df := df s;
      page := page s ++
        [ Subheader "Respondents with Less than 6 Hours of Weekday Sleep";
          WriteFrame (head 5 (getitem_mask mask (df s)));
          WriteText "Health issues, eyewear use, and social interaction of such respondents";
          WriteText msg_no_projection;
          Subheader "Impact of Sleep Time on Health Issues";
          WriteText msg_no_health_effects ] |}).
Proof.
  destruct s as [d pg]. simpl. intros Hh Hl Hm.
  unfold less_than_6_hours, health_issues_report, sleep_health_scatter. unfold_script.
  rewrite (lookup_Some_has_column _ _ _ Hl). unfold getitem. rewrite Hl, Hm.
  rewrite (issubset_false _ d "Health_Effects") by (simpl; tauto).
  rewrite Hh. tidy_page. reflexivity.
Qed.

(** C4, as stated, fails: Health_Effects is absent from the table, the report
    completes, and neither the projection nor the scatter plot writes its
    fallback message: they sit inside the branch that needs
    Ave_Weekday_Sleep, which is absent too. *)
Lemma column_guards_counterexample :
  has_column "Health_Effects" survey_no_sleep = false
  /\ exists pg,
       report (chi2_constant 1) false {| df := survey_no_sleep; page := [] |} =
       (Done tt, {| df := survey_no_sleep; page := pg |})
       /\ ~ In (WriteText msg_no_projection) pg
       /\ ~ In (WriteText msg_no_health_effects) pg.
Proof.
  split; [reflexivity|]. eexists. split; [cbv -[IZR]; reflexivity|].
  unfold msg_no_projection, msg_no_health_effects. simpl.
  split; intros H; repeat (destruct H as [H|H]; [discriminate H|]); exact H.
Qed.

(** C4, amended: each of the steps that reads named columns tests for them
    first; when one is absent it writes its fixed fallback message, does not
    throw and leaves the table as it is.  The projection and the scatter plot
    are nested in the step that needs Ave_Weekday_Sleep: when Health_Effects
    is absent and Ave_Weekday_Sleep can be compared with 6 they both write
    their fallback messages; when Ave_Weekday_Sleep is absent only the
    message of the enclosing step is written. *)
Theorem column_guards
    (chi2_contingency : list (list nat) -> outcome R) (s : state) :
  (forall g c, In c (requires g) -> has_column c (df s) = false ->
     run_guarded chi2_contingency g s = (Done tt, skipped g s))
  /\ (forall y mask,
        has_column "Health_Effects" (df s) = false ->
        lookup "Ave_Weekday_Sleep" (df s) = Some y ->
        series_lt y (Fin 6) = Done mask ->
        less_than_6_hours s =
        (Done tt,
         {| df := df s;
            page := page s ++
              [ Subheader "Respondents with Less than 6 Hours of Weekday Sleep";
                WriteFrame (head 5 (getitem_mask mask (df s)));
                WriteText "Health issues, eyewear use, and social interaction of such respondents";
                WriteText msg_no_projection;
                Subheader "Impact of Sleep Time on Health Issues";
                WriteText msg_no_health_effects ] |}))
  /\ (has_column "Ave_Weekday_Sleep" (df s) = false ->
      less_than_6_hours s =
      (Done tt,
       {| df := df s;
          page := page s ++
            [ Subheader "Respondents with Less than 6 Hours of Weekday Sleep";
              WriteText msg_no_weekday_sleep ] |})).
Proof.
  split; [|split].
  - intros g c. apply guard_skips.
  - intros y mask. apply less_than_6_hours_without_health_effects.
  - intros Hc.
    apply (guard_skips chi2_contingency LessThan6Hours s "Ave_Weekday_Sleep");
      [simpl; tauto | exact Hc].
Qed.

Lemma column_guards_witness :
  run_guarded (chi2_constant 1) ChiSquareWeekday {| df := survey16; page := [] |} =
  (Done tt, skipped ChiSquareWeekday {| df := survey16; page := [] |})
  /\ less_than_6_hours {| df := survey16; page := [] |} =
     (Done tt,
      {| df := survey16;
         page := [] ++
           [ Subheader "Respondents with Less than 6 Hours of Weekday Sleep";
             WriteFrame (head 5 (getitem_mask (repeat false 16) survey16));
             WriteText "Health issues, eyewear use, and social interaction of such respondents";
             WriteText msg_no_projection;
             Subheader "Impact of Sleep Time on Health Issues";
             WriteText msg_no_health_effects ] |})
  /\ less_than_6_hours {| df := survey_no_sleep; page := [] |} =
     (Done tt,
      {| df := survey_no_sleep;
         page := [] ++
           [ Subheader "Respondents with Less than 6 Hours of Weekday Sleep";
             WriteText msg_no_weekday_sleep ] |}).
Proof.
  destruct (column_guards (chi2_constant 1) {| df := survey16; page := [] |})
    as [H1 [H2 _]].
  destruct (column_guards (chi2_constant 1) {| df := survey_no_sleep; page := [] |})
    as [_ [_ H3]].
  split; [|split].
  - apply (H1 ChiSquareWeekday "ST_Weekday"); [simpl; tauto | reflexivity].
  - apply (H2 (finite sleep16) (repeat false 16)); [reflexivity | reflexivity |].
    unfold series_lt. rewrite compare_series_finite. f_equal.
    unfold sleep16, flt, Rltb. simpl. decide_Rle. reflexivity.
  - apply H3. reflexivity.
Defined.

(** ** What the later steps see of the clamp *)

Lemma where_assign_all_false (mask : list bool) (v : cell) (xs : column) :
  Forall (fun b => b = false) mask -> where_assign mask v xs = xs.
Proof.
  intros H. revert xs. induction H as [|b mask Hb H IH]; intros [|x xs]; simpl;
    try reflexivity. subst b. now rewrite IH.
Qed.

Lemma loc_assign_all_false (mask : list bool) (c : string) (v : cell) (d : table) :
  Forall (fun b => b = false) mask -> loc_assign mask c v d = d.
Proof.
  intros H. unfold loc_assign. rewrite <- (map_id d) at 2. apply map_ext.
  intros [c' xs]. simpl. destruct (String.eqb c' c); [|reflexivity].
  now rewrite where_assign_all_false.
Qed.

Lemma clamped_survey16 :
  clamped sleep16 survey16 =
  [ ("Age", repeat (Str "25-34") 8 ++ repeat (Str "18-24") 8);
    ("Ave_Weekday_Sleep", finite (repeat 7 15 ++ [20])%R);
    ("Ave_Weekend_Sleep", finite (repeat 8%R 16)) ].
Proof.
  unfold clamped. rewrite upper_limit_sleep16.
  unfold survey16, sleep16, loc_assign, fge, Rgeb. simpl.
  decide_Rle. reflexivity.
Qed.

(** C2, as stated, fails: on the sixteen respondents the clamp turns the 23
    into 20, and the grouped-mean step, which runs after it and reads the
    column again, draws 69/8 for the group 18-24 where the unclamped table
    gives 9. *)
Lemma clamp_reaches_later_steps_counterexample :
  exists s1,
    outlier_analysis {| df := survey16; page := [] |} = (Done tt, s1)
    /\ groupby_mean "Age" "Ave_Weekday_Sleep" (df s1) =
       Done [ (Str "18-24", Fin (69 / 8)); (Str "25-34", Fin 7) ]
    /\ groupby_mean "Age" "Ave_Weekday_Sleep" survey16 =
       Done [ (Str "18-24", Fin 9); (Str "25-34", Fin 7) ]
    /\ page (snd (sleep_by_age_group {| df := df s1; page := [] |})) <>
       page (snd (sleep_by_age_group {| df := survey16; page := [] |})).
Proof.
  destruct (outlier_analysis_numeric survey16 [] sleep16 eq_refl)
    as [mn [mx [_ [_ Hrun]]]].
  eexists. split; [exact Hrun|]. cbn [df].
  assert (H1 : groupby_mean "Age" "Ave_Weekday_Sleep" (clamped sleep16 survey16) =
               Done [ (Str "18-24", Fin (69 / 8)); (Str "25-34", Fin 7) ]).
  { rewrite clamped_survey16. unfold groupby_mean. simpl.
    do 3 f_equal; [|f_equal]; do 2 f_equal; lra. }
  assert (H2 : groupby_mean "Age" "Ave_Weekday_Sleep" survey16 =
               Done [ (Str "18-24", Fin 9); (Str "25-34", Fin 7) ]).
  { unfold groupby_mean, survey16, sleep16. simpl.
    do 3 f_equal; [|f_equal]; do 2 f_equal; lra. }
  split; [exact H1|]. split; [exact H2|].
  assert (Hc1 : has_column "Age" (clamped sleep16 survey16)
                && has_column "Ave_Weekday_Sleep" (clamped sleep16 survey16) = true).
  { now rewrite clamped_survey16. }
  unfold sleep_by_age_group. unfold_script. rewrite Hc1, H1.
  change (has_column "Age" survey16 && has_column "Ave_Weekday_Sleep" survey16)
    with true.
  rewrite H2. simpl. intros H. inversion H as [Heq]. lra.
Qed.

(** * Further properties of the script *)

(** ** Loader: the Timestamp column *)

(** X1: Without a Timestamp header [drop] raises, the loader raises with it, and
    the run ends after the banner. *)
Theorem load_data_requires_timestamp
    (chi2_contingency : list (list nat) -> outcome R) (csv : table) (checkbox : bool) :
  ~ In "Timestamp" (columns csv) ->
  load_data csv = Raised KeyError
  /\ screen chi2_contingency csv checkbox = (Raised KeyError, banner).
Proof.
  intros H. apply has_column_false in H.
  assert (Hl : load_data csv = Raised KeyError).
  { unfold load_data, drop. simpl forallb. now rewrite H. }
  split; [exact Hl|]. unfold screen. now rewrite Hl.
Qed.

Lemma load_data_requires_timestamp_witness :
  load_data survey_no_sleep = Raised KeyError
  /\ screen (chi2_constant 1) survey_no_sleep true = (Raised KeyError, banner).
Proof.
  apply (load_data_requires_timestamp (chi2_constant 1) survey_no_sleep true).
  simpl. intuition discriminate.
Defined.

Lemma rename_label_not_Timestamp (c : string) :
  c <> "Timestamp" -> rename_label rename_columns c <> "Timestamp".
Proof.
  intros Hc Hr. destruct (rename_label_cases rename_columns c) as [H|H].
  - congruence.
  - rewrite Hr in H. simpl in H.
    repeat (destruct H as [H|H]; [discriminate H|]). exact H.
Qed.

(** X2: The loaded table has no Timestamp column, and otherwise the columns of
    the file: as many, in the same order, under their renamed labels, each
    with as many rows as in the file. *)
Theorem load_data_shape (csv d : table) :
  load_data csv = Done d ->
  let kept := filter (fun p => negb (existsb (String.eqb (fst p)) ["Timestamp"])) csv in
  ~ In "Timestamp" (columns d)
  /\ columns d = map (rename_label rename_columns) (columns kept)
  /\ map (fun p => length (snd p)) d = map (fun p => length (snd p)) kept
  /\ forall n, Forall (fun p => length (snd p) = n) csv ->
               Forall (fun p => length (snd p) = n) d.
Proof.
  intros Hl kept. unfold load_data in Hl.
  destruct (drop ["Timestamp"] csv) as [d0|e] eqn:Hd; [|discriminate].
  unfold drop in Hd. destruct (forallb _ _); [|discriminate].
  inversion Hd; subst d0; clear Hd. inversion Hl; subst d; clear Hl.
  fold kept.
  assert (Hlen : map (fun p => length (snd p))
                     (replace_nan (Str "0") (rename rename_columns kept)) =
                 map (fun p => length (snd p)) kept).
  { unfold replace_nan, rename. rewrite !map_map. apply map_ext.
    intros [c xs]. simpl. apply length_map. }
  split; [|split; [|split]].
  - rewrite columns_replace_nan, columns_rename. intros Hin.
    apply in_map_iff in Hin. destruct Hin as [c [Hc Hin]].
    apply (rename_label_not_Timestamp c); [|exact Hc].
    unfold columns in Hin. apply in_map_iff in Hin. destruct Hin as [p [<- Hp]].
    apply filter_In in Hp. destruct Hp as [_ Hp]. simpl in Hp.
    rewrite orb_false_r in Hp. apply negb_true_iff in Hp.
    now apply String.eqb_neq in Hp.
  - now rewrite columns_replace_nan, columns_rename.
  - exact Hlen.
  - intros n Hn. apply Forall_forall. intros p Hp.
    unfold replace_nan, rename in Hp. rewrite map_map in Hp.
    apply in_map_iff in Hp. destruct Hp as [q [<- Hq]]. simpl.
    rewrite length_map. apply filter_In in Hq.
    rewrite Forall_forall in Hn. now apply Hn.
Qed.

Lemma load_data_shape_witness :
  let kept := filter (fun p => negb (existsb (String.eqb (fst p)) ["Timestamp"]))
                     csv_with_gaps in
  ~ In "Timestamp" (columns survey_with_gaps)
  /\ columns survey_with_gaps = map (rename_label rename_columns) (columns kept)
  /\ map (fun p => length (snd p)) survey_with_gaps = map (fun p => length (snd p)) kept
  /\ forall n, Forall (fun p => length (snd p) = n) csv_with_gaps ->
               Forall (fun p => length (snd p) = n) survey_with_gaps.
Proof.
  apply (load_data_shape csv_with_gaps survey_with_gaps). reflexivity.
Defined.

(** ** Loader: a renamed column is found under its short name *)

Lemma rename_label_key (m : list (string * string)) (long short : string) :
  distinct (map fst m) = true -> In (long, short) m -> rename_label m long = short.
Proof.
  induction m as [|[k v] m IH]; simpl; [contradiction|].
  intros Hd Hin. apply andb_prop in Hd. destruct Hd as [Hn Hd].
  destruct Hin as [Hin|Hin].
  - inversion Hin; subst. now rewrite String.eqb_refl.
  - destruct (String.eqb_spec long k) as [->|Hne]; [|now apply IH].
    exfalso. apply negb_true_iff in Hn.
    assert (He : existsb (String.eqb k) (map fst m) = true).
    { apply existsb_exists. exists k. split; [|apply String.eqb_refl].
      change k with (fst (k, short)). now apply in_map. }
    congruence.
Qed.

Lemma rename_key_not_Timestamp (long short : string) :
  In (long, short) rename_columns -> long <> "Timestamp".
Proof.
  simpl. intros H Hl. subst long.
  repeat (destruct H as [H|H]; [discriminate H|]). exact H.
Qed.

Lemma load_data_lookup (csv : table) (long short : string) (xs : column) :
  In (long, short) rename_columns ->
  In "Timestamp" (columns csv) ->
  lookup long csv = Some xs ->
  ~ In short (columns csv) ->
  exists d,
    load_data csv = Done d
    /\ getitem short d = Done (map (fun x => if isnull x then Str "0" else x) xs)
    /\ has_column short d = true.
Proof.
  intros Hm Ht Hl Hs. unfold load_data. rewrite (drop_Timestamp csv Ht).
  eexists. split; [reflexivity|].
  assert (Hlong : long <> "Timestamp") by (eapply rename_key_not_Timestamp; eauto).
  assert (Hkey : rename_label rename_columns long = short).
  { apply rename_label_key; [reflexivity | exact Hm]. }
  assert (Hlk : lookup short
                  (replace_nan (Str "0")
                     (rename rename_columns
                        (filter (fun p => negb (existsb (String.eqb (fst p)) ["Timestamp"]))
                                csv))) =
                Some (map (fun x => if isnull x then Str "0" else x) xs)).
  { assert (Hdv : distinct (map snd rename_columns) = true) by reflexivity.
    clear Ht. revert Hm Hkey Hdv. generalize rename_columns. intros m Hm Hkey Hdv.
    induction csv as [|[c ys] csv IH]; [discriminate|].
    simpl in Hl, Hs. cbn [filter fst existsb].
    destruct (String.eqb_spec long c) as [<-|Hne].
    - inversion Hl; subst ys.
      destruct (String.eqb_spec long "Timestamp") as [E|_]; [contradiction|].
      simpl. rewrite Hkey, String.eqb_refl. reflexivity.
    - assert (IH' := IH Hl (fun H => Hs (or_intror H))).
      destruct (String.eqb_spec c "Timestamp") as [E|_]; simpl; [exact IH'|].
      destruct (String.eqb_spec short (rename_label m c)) as [E|_];
        [|exact IH'].
      exfalso. destruct (rename_label_cases m c) as [H|H].
      + apply Hs. left. congruence.
      + rewrite <- E in H. apply Hne. symmetry.
        eapply distinct_values; eauto. }
  split.
  - unfold getitem. now rewrite Hlk.
  - eapply lookup_Some_has_column. exact Hlk.
Qed.

(** X3: When the file has a column under a long header, and no column already
    under the short name, the loaded table has that column under the short
    name, with "0" where the file had a gap. *)
Theorem load_data_finds_renamed (csv : table) (long short : string) (xs : column) :
  In (long, short) rename_columns ->
  In "Timestamp" (columns csv) ->
  lookup long csv = Some xs ->
  ~ In short (columns csv) ->
  exists d,
    load_data csv = Done d
    /\ getitem short d = Done (map (fun x => if isnull x then Str "0" else x) xs)
    /\ has_column short d = true.
Proof. apply load_data_lookup. Qed.

Lemma load_data_finds_renamed_witness :
  exists d,
    load_data csv_with_gaps = Done d
    /\ getitem "Age" d =
       Done (map (fun x => if isnull x then Str "0" else x) [Str "18-24"; Num nan])
    /\ has_column "Age" d = true.
Proof.
  apply (load_data_finds_renamed csv_with_gaps "What is your age?" "Age").
  - simpl. tauto.
  - simpl. tauto.
  - reflexivity.
  - simpl. intuition discriminate.
Defined.

(** ** The page is a sink *)

Lemma writes_only_ret {A} (a : A) : writes_only (ret a).
Proof. intros d. exists (Done a), d, []. intros pg. now rewrite app_nil_r. Qed.

Lemma writes_only_lift {A} (o : outcome A) : writes_only (lift o).
Proof. intros d. exists o, d, []. intros pg. unfold lift. now rewrite app_nil_r. Qed.

Lemma writes_only_emit (o : output) : writes_only (emit o).
Proof. intros d. exists (Done tt), d, [o]. reflexivity. Qed.

Lemma writes_only_get_df : writes_only get_df.
Proof. intros d. exists (Done d), d, []. intros pg. unfold get_df. now rewrite app_nil_r. Qed.

Lemma writes_only_set_df (t : table) : writes_only (set_df t).
Proof. intros d. exists (Done tt), t, []. intros pg. unfold set_df. simpl. now rewrite app_nil_r. Qed.

Lemma writes_only_bind {A B} (m : script A) (k : A -> script B) :
  writes_only m -> (forall a, writes_only (k a)) -> writes_only (bind m k).
Proof.
  intros Hm Hk d. destruct (Hm d) as [[a|e] [d1 [out1 H1]]].
  - destruct (Hk a d1) as [r [d2 [out2 H2]]].
    exists r, d2, (out1 ++ out2). intros pg. unfold bind.
    now rewrite H1, H2, app_assoc.
  - exists (Raised e), d1, out1. intros pg. unfold bind. now rewrite H1.
Qed.

Lemma writes_only_if {A} (b : bool) (m1 m2 : script A) :
  writes_only m1 -> writes_only m2 -> writes_only (if b then m1 else m2).
Proof. now destruct b. Qed.

Ltac sink :=
  repeat first
    [ apply writes_only_ret | apply writes_only_lift | apply writes_only_emit
    | apply writes_only_get_df | apply writes_only_set_df
    | apply writes_only_if | (apply writes_only_bind; [|intro]) ].

Section Sink.

Variable chi2_contingency : list (list nat) -> outcome R.

Lemma writes_only_after_checkbox :
  writes_only
    (data_information ;; basic_information ;; statistical_summary ;; null_values ;;
     correlation_analysis ;; outlier_analysis ;; sleep_by_age_group ;;
     less_than_6_hours ;; chi_square_weekday chi2_contingency ;;
     chi_square_weekend chi2_contingency).
Proof.
  unfold data_information, basic_information, statistical_summary, null_values,
    correlation_analysis, outlier_analysis, sleep_by_age_group, less_than_6_hours,
    health_issues_report, sleep_health_scatter, chi_square_weekday, chi_square_weekend,
    association_test, st_subheader, st_write, st_pyplot.
  sink.
Qed.

(** X5: The report never reads the page: its outcome, the table it leaves and the
    outputs it appends are the same whatever is already on the page.  Ticking
    the checkbox puts the first ten rows in front of those outputs and changes
    nothing else. *)
Theorem page_is_a_sink (d : table) :
  exists r d' out,
    forall pg,
      report chi2_contingency false {| df := d; page := pg |} =
      (r, {| df := d'; page := pg ++ out |})
      /\ report chi2_contingency true {| df := d; page := pg |} =
         (r, {| df := d'; page := pg ++ WriteFrame (head 10 d) :: out |}).
Proof.
  destruct (writes_only_after_checkbox d) as [r [d' [out H]]].
  exists r, d', out. intros pg. split.
  - unfold report, show_raw_data. unfold bind at 1 2. unfold get_df, ret. apply H.
  - unfold report, show_raw_data. unfold bind at 1 2. unfold get_df, emit.
    cbn [df page]. rewrite H. now rewrite <- app_assoc.
Qed.

End Sink.

(** ** Reading the filtered table *)

Lemma lookup_getitem_mask (mask : list bool) (c : string) (d : table) :
  lookup c (getitem_mask mask d) =
  match lookup c d with
  | Some xs => Some (select mask xs)
  | None => None
  end.
Proof.
  induction d as [|[c' xs] d IH]; simpl; [reflexivity|].
  destruct (String.eqb c c'); [reflexivity | exact IH].
Qed.

Lemma columns_getitem_mask (mask : list bool) (d : table) :
  columns (getitem_mask mask d) = columns d.
Proof. unfold columns, getitem_mask. now rewrite map_map. Qed.

Lemma getitem_present (c : string) (d : table) :
  has_column c d = true -> exists xs, getitem c d = Done xs.
Proof.
  intros H. destruct (lookup_has_column c d H) as [xs Hx].
  exists xs. unfold getitem. now rewrite Hx.
Qed.

Lemma getitem_list_present (cs : list string) (d : table) :
  issubset cs d = true -> exists t, getitem_list cs d = Done t /\ columns t = cs.
Proof.
  unfold issubset. induction cs as [|c cs IH]; simpl; intros H.
  - now exists [].
  - apply andb_prop in H. destruct H as [Hc Hcs].
    destruct (getitem_present c d Hc) as [xs Hx].
    destruct (IH Hcs) as [t [Ht Hcol]]. rewrite Hx, Ht.
    eexists. split; [reflexivity|]. simpl. now rewrite Hcol.
Qed.

Lemma has_column_getitem_mask (mask : list bool) (c : string) (d : table) :
  has_column c (getitem_mask mask d) = has_column c d.
Proof. unfold has_column. now rewrite columns_getitem_mask. Qed.

Lemma issubset_getitem_mask (mask : list bool) (cs : list string) (d : table) :
  issubset cs (getitem_mask mask d) = issubset cs d.
Proof.
  unfold issubset. induction cs as [|c cs IH]; simpl; [reflexivity|].
  now rewrite has_column_getitem_mask, IH.
Qed.

Lemma has_column_loc_assign (mask : list bool) (c c0 : string) (v : cell) (d : table) :
  has_column c0 (loc_assign mask c v d) = has_column c0 d.
Proof. unfold has_column. now rewrite columns_loc_assign. Qed.

Lemma health_issues_report_done (mask : list bool) (d : table) (pg : list output) :
  exists pg',
    health_issues_report (getitem_mask mask d) {| df := d; page := pg |} =
    (Done tt, {| df := d; page := pg' |}).
Proof.
  unfold health_issues_report. unfold_script.
  destruct (issubset ["Health_Effects"; "Eyewear_User"; "Interaction_Affects"] d) eqn:Hs.
  - rewrite <- (issubset_getitem_mask mask) in Hs.
    destruct (getitem_list_present _ _ Hs) as [t [Ht _]]. rewrite Ht. eauto.
  - eauto.
Qed.

Lemma sleep_health_scatter_run (mask : list bool) (d : table) (pg : list output)
    (y : column) :
  lookup "Ave_Weekday_Sleep" d = Some y ->
  sleep_health_scatter (getitem_mask mask d) {| df := d; page := pg |} =
  match lookup "Health_Effects" d with
  | None =>
      (Done tt,
       {| df := d;
          page := pg ++ [ Subheader "Impact of Sleep Time on Health Issues";
                          WriteText msg_no_health_effects ] |})
  | Some h =>
      match scatter (select mask y) (select mask h)
                    "Impact of Sleep Time on Health Issues"
                    "Weekday Sleep (hours)" "Health Issues" with
      | Done fig =>
          (Done tt,
           {| df := d;
              page := pg ++ [ Subheader "Impact of Sleep Time on Health Issues";
                              Pyplot fig ] |})
      | Raised e =>
          (Raised e,
           {| df := d;
              page := pg ++ [ Subheader "Impact of Sleep Time on Health Issues" ] |})
      end
  end.
Proof.
  intros Hl. unfold sleep_health_scatter. unfold_script.
  destruct (lookup "Health_Effects" d) as [h|] eqn:Hh.
  - rewrite (lookup_Some_has_column _ _ _ Hh). unfold getitem.
    rewrite !lookup_getitem_mask, Hl, Hh.
    destruct (scatter _ _ _ _ _); tidy_page; reflexivity.
  - assert (Hc : has_column "Health_Effects" d = false).
    { destruct (has_column "Health_Effects" d) eqn:E; [|reflexivity].
      destruct (lookup_has_column _ _ E) as [xs Hx]. congruence. }
    rewrite Hc. tidy_page. reflexivity.
Qed.

(** ** Small samples are never clamped *)

Lemma Rsum_app (l1 l2 : list R) : Rsum (l1 ++ l2) = (Rsum l1 + Rsum l2)%R.
Proof. unfold Rsum. induction l1 as [|x l1 IH]; simpl; [lra | rewrite IH; lra]. Qed.

Lemma Rsum_map_insert (f : R -> R) (l1 l2 : list R) (v : R) :
  Rsum (map f (l1 ++ v :: l2)) = (Rsum (map f (l1 ++ l2)) + f v)%R.
Proof.
  rewrite !map_app, !Rsum_app. simpl map. unfold Rsum at 2. simpl.
  fold (Rsum (map f l2)). lra.
Qed.

Lemma Rsum_map_shift (c : R) (l : list R) :
  Rsum (map (fun x => (x - c)%R) l) = (Rsum l - INR (length l) * c)%R.
Proof.
  unfold Rsum. induction l as [|x l IH]; [simpl; lra|].
  cbn [map fold_right length]. rewrite IH, S_INR. lra.
Qed.

Lemma quadratic_nonneg (a : R) (l : list R) :
  (0 <= INR (length l) * (a * a) - 2 * a * Rsum l + Rsum (map (fun x => (x * x)%R) l))%R.
Proof.
  unfold Rsum. induction l as [|x l IH]; [simpl; lra|].
  cbn [map fold_right length]. rewrite S_INR.
  pose proof (Rle_0_sqr (a - x)) as Hx. unfold Rsqr in Hx. lra.
Qed.

(** Cauchy-Schwarz against the constant vector. *)
Lemma square_of_sum (l : list R) :
  (Rsum l * Rsum l <= INR (length l) * Rsum (map (fun x => (x * x)%R) l))%R.
Proof.
  induction l as [|a l IH]; [unfold Rsum; simpl; lra|].
  pose proof (quadratic_nonneg a l) as Hq.
  unfold Rsum in *. cbn [map fold_right length]. rewrite S_INR. lra.
Qed.

(** No value is further from the mean than (n - 1) / sqrt n sample
    deviations. *)
Lemma deviation_bound (ws : list R) (v : R) :
  In v ws ->
  (INR (length ws) * ((v - arithmetic_mean ws) * (v - arithmetic_mean ws))
   <= (INR (length ws) - 1) * squared_deviations ws)%R.
Proof.
  intros Hin. apply in_split in Hin. destruct Hin as [l1 [l2 Hs]].
  remember (arithmetic_mean ws) as mu eqn:Emu.
  assert (Hn : INR (length ws) = (INR (length (l1 ++ l2)) + 1)%R).
  { rewrite Hs, !length_app. cbn [length]. rewrite Nat.add_succ_r, S_INR.
    reflexivity. }
  assert (Hpos : (0 < INR (length ws))%R).
  { rewrite Hn. pose proof (pos_INR (length (l1 ++ l2))). lra. }
  assert (Hmu : (INR (length ws) * mu = Rsum ws)%R).
  { rewrite Emu. unfold arithmetic_mean. field. lra. }
  assert (Hss : squared_deviations ws =
                (Rsum (map (fun x => ((x - mu) * (x - mu))%R) (l1 ++ l2))
                 + (v - mu) * (v - mu))%R).
  { unfold squared_deviations. rewrite <- Emu.
    rewrite (map_ext (fun x => ((x - mu) ^ 2)%R) (fun x => ((x - mu) * (x - mu))%R))
      by (intros; ring).
    rewrite Hs. apply (Rsum_map_insert (fun x => ((x - mu) * (x - mu))%R)). }
  assert (Hd : (Rsum (map (fun x => (x - mu)%R) (l1 ++ l2)) = - (v - mu))%R).
  { assert (H0 : (Rsum (map (fun x => (x - mu)%R) ws) = 0)%R).
    { rewrite Rsum_map_shift. lra. }
    rewrite Hs in H0. rewrite (Rsum_map_insert (fun x => (x - mu)%R)) in H0. lra. }
  pose proof (square_of_sum (map (fun x => (x - mu)%R) (l1 ++ l2))) as Hcs.
  rewrite length_map, map_map, Hd in Hcs.
  rewrite Hss, Hn.
  set (Q := Rsum (map (fun x => ((x - mu) * (x - mu))%R) (l1 ++ l2))) in *.
  set (m := INR (length (l1 ++ l2))) in *.
  set (dd := ((v - mu) * (v - mu))%R) in *.
  replace (- (v - mu) * - (v - mu))%R with dd in Hcs by (unfold dd; ring).
  replace ((m + 1 - 1) * (Q + dd))%R with (m * Q + m * dd)%R by ring.
  lra.
Qed.

Lemma squared_deviations_nonneg (ws : list R) : (0 <= squared_deviations ws)%R.
Proof.
  unfold squared_deviations.
  rewrite (map_ext (fun v => ((v - arithmetic_mean ws) ^ 2)%R)
                   (fun v => ((arithmetic_mean ws - v) * (arithmetic_mean ws - v))%R))
    by (intros; ring).
  apply Rsum_squares_nonneg.
Qed.

(** With two to ten values none of them exceeds mean + 3 sample deviations. *)
Lemma small_sample_within_bound (ws : list R) (v : R) :
  (2 <= length ws <= 10)%nat ->
  In v ws ->
  (v <= arithmetic_mean ws + 3 * sample_std ws)%R.
Proof.
  intros [H2 H10] Hin.
  pose proof (deviation_bound ws v Hin) as Hb.
  pose proof (squared_deviations_nonneg ws) as Hss.
  assert (HN2 : (2 <= INR (length ws))%R) by (apply (le_INR 2); exact H2).
  assert (HN10 : (INR (length ws) <= 10)%R).
  { replace 10%R with (INR 10) by (simpl; lra). now apply le_INR. }
  set (N := INR (length ws)) in *. set (SS := squared_deviations ws) in *.
  set (mu := arithmetic_mean ws) in *.
  assert (Hq : (0 <= SS / (N - 1))%R).
  { apply Rmult_le_pos; [exact Hss|]. left. apply Rinv_0_lt_compat. lra. }
  assert (Hsq : (sample_std ws * sample_std ws = SS / (N - 1))%R).
  { unfold sample_std. fold SS N. now apply sqrt_sqrt. }
  assert (Hs0 : (0 <= sample_std ws)%R) by (unfold sample_std; apply sqrt_pos).
  set (sd := sample_std ws) in *.
  destruct (Rle_dec v (mu + 3 * sd)) as [Hle|Hgt]; [exact Hle|exfalso].
  assert (Hd : (3 * sd < v - mu)%R) by lra.
  assert (Hdd : (9 * (sd * sd) < (v - mu) * (v - mu))%R) by nra.
  set (dd := ((v - mu) * (v - mu))%R) in *.
  assert (Hss' : (SS = sd * sd * (N - 1))%R).
  { rewrite Hsq. field. lra. }
  assert (Hdd0 : (0 < dd)%R) by nra.
  assert (H9 : (9 * SS <= dd * (N - 1))%R) by (rewrite Hss'; nra).
  assert (H81 : (9 * (N * dd) <= (N - 1) * (N - 1) * dd)%R) by nra.
  assert (Hpoly : (0 < 9 * N - (N - 1) * (N - 1))%R) by nra.
  nra.
Qed.

Lemma cap_small_sample (ws : list R) :
  (length ws <= 10)%nat -> map (cap (upper_limit_of ws)) ws = ws.
Proof.
  intros H10. destruct (Nat.lt_ge_cases (length ws) 2) as [Hlt|Hge].
  - rewrite (upper_limit_small ws Hlt). simpl. apply map_id.
  - rewrite (upper_limit_sample ws Hge).
    transitivity (map (fun x : R => x) ws); [|apply map_id].
    apply map_ext_in. intros v Hv. simpl. apply Rmin_left.
    apply small_sample_within_bound; [lia | exact Hv].
Qed.

(** X7: With at most ten rows, in a table of distinct labels, the outlier step
    changes no value: no value of so small a sample lies above mean + 3
    sample deviations, so the step leaves every column as it found it. *)
Theorem small_sample_never_clamped (s : state) (ws : list R) :
  distinct (columns (df s)) = true ->
  (length ws <= 10)%nat ->
  lookup "Ave_Weekday_Sleep" (df s) = Some (finite ws) ->
  exists s',
    outlier_analysis s = (Done tt, s')
    /\ columns (df s') = columns (df s)
    /\ forall c, getitem c (df s') = getitem c (df s).
Proof.
  destruct s as [d pg]. simpl. intros _ H10 Hl.
  destruct (outlier_analysis_numeric d pg ws Hl) as [mn [mx [_ [_ Hrun]]]].
  eexists. split; [exact Hrun|]. cbn [df]. split.
  - unfold clamped. apply columns_loc_assign.
  - intros c. unfold getitem.
    destruct (String.eqb_spec c "Ave_Weekday_Sleep") as [->|Hne].
    + now rewrite (lookup_clamped d ws Hl), Hl, cap_small_sample.
    + unfold clamped. now rewrite lookup_loc_assign_other.
Qed.

Lemma small_sample_never_clamped_witness :
  exists s',
    outlier_analysis {| df := survey_short_nights; page := [] |} = (Done tt, s')
    /\ columns (df s') = columns survey_short_nights
    /\ forall c, getitem c (df s') = getitem c survey_short_nights.
Proof.
  apply (small_sample_never_clamped {| df := survey_short_nights; page := [] |}
           [5; 7; 6; 4; 23]%R).
  - reflexivity.
  - simpl. lia.
  - reflexivity.
Defined.

(** ** The statistics the outlier step writes *)

Lemma fold_left_Rmin (l : list R) (x : R) :
  In (fold_left Rmin l x) (x :: l)
  /\ forall y, In y (x :: l) -> (fold_left Rmin l x <= y)%R.
Proof.
  revert x. induction l as [|a l IH]; intros x; simpl.
  - split; [now left|]. intros y [<-|[]]. lra.
  - destruct (IH (Rmin x a)) as [Hin Hle]. split.
    + remember (fold_left Rmin l (Rmin x a)) as m.
      destruct Hin as [Hin|Hin]; [|now right; right].
      destruct (Rle_dec x a);
        [rewrite Rmin_left in Hin by lra | rewrite Rmin_right in Hin by lra]; tauto.
    + intros y Hy.
      assert (Hm : (fold_left Rmin l (Rmin x a) <= Rmin x a)%R)
        by (apply Hle; now left).
      pose proof (Rmin_l x a). pose proof (Rmin_r x a).
      destruct Hy as [<-|[<-|Hy]]; [lra | lra | apply Hle; now right].
Qed.

Lemma fold_left_Rmax (l : list R) (x : R) :
  In (fold_left Rmax l x) (x :: l)
  /\ forall y, In y (x :: l) -> (y <= fold_left Rmax l x)%R.
Proof.
  revert x. induction l as [|a l IH]; intros x; simpl.
  - split; [now left|]. intros y [<-|[]]. lra.
  - destruct (IH (Rmax x a)) as [Hin Hle]. split.
    + remember (fold_left Rmax l (Rmax x a)) as m.
      destruct Hin as [Hin|Hin]; [|now right; right].
      destruct (Rle_dec x a);
        [rewrite Rmax_right in Hin by lra | rewrite Rmax_left in Hin by lra]; tauto.
    + intros y Hy.
      assert (Hm : (Rmax x a <= fold_left Rmax l (Rmax x a))%R)
        by (apply Hle; now left).
      pose proof (Rmax_l x a). pose proof (Rmax_r x a).
      destruct Hy as [<-|[<-|Hy]]; [lra | lra | apply Hle; now right].
Qed.

Lemma Rsum_bounds (l : list R) (lo hi : R) :
  (forall y, In y l -> (lo <= y <= hi)%R) ->
  (INR (length l) * lo <= Rsum l <= INR (length l) * hi)%R.
Proof.
  unfold Rsum. induction l as [|a l IH]; intros H; [simpl; lra|].
  cbn [fold_right length]. rewrite S_INR.
  assert (Ha := H a (or_introl eq_refl)).
  assert (IH' := IH (fun y Hy => H y (or_intror Hy))). lra.
Qed.

Lemma mean_between (l : list R) (lo hi : R) :
  l <> [] ->
  (forall y, In y l -> (lo <= y <= hi)%R) ->
  (lo <= arithmetic_mean l <= hi)%R.
Proof.
  intros Hne H. pose proof (Rsum_bounds l lo hi H) as Hb.
  assert (Hn : (0 < INR (length l))%R).
  { apply lt_0_INR. destruct l; [contradiction | simpl; lia]. }
  unfold arithmetic_mean. split.
  - apply Rmult_le_reg_l with (INR (length l)); [exact Hn|].
    replace (INR (length l) * (Rsum l / INR (length l)))%R with (Rsum l)
      by (field; lra). lra.
  - apply Rmult_le_reg_l with (INR (length l)); [exact Hn|].
    replace (INR (length l) * (Rsum l / INR (length l)))%R with (Rsum l)
      by (field; lra). lra.
Qed.

(** X8: On a non-empty column of numbers, in a table of distinct labels, the
    minimum and the maximum the step writes are values of the column that
    bound all the others and the mean, the mean lies between the two limits,
    and after the step no value of the column is above the upper limit. *)
Theorem written_statistics_consistent (s : state) (ws : list R) :
  distinct (columns (df s)) = true ->
  ws <> [] ->
  lookup "Ave_Weekday_Sleep" (df s) = Some (finite ws) ->
  exists mn mx s',
    outlier_analysis s = (Done tt, s')
    /\ In (WriteValue "The Minimum weekday sleep of the respondents was found to be: "
                      (Num (Fin mn)) "hrs") (page s')
    /\ In (WriteValue "The Maximum weekday sleep of the respondents was found to be: "
                      (Num (Fin mx)) "hrs") (page s')
    /\ In mn ws /\ In mx ws
    /\ (forall v, In v ws -> (mn <= v <= mx)%R)
    /\ (mn <= arithmetic_mean ws <= mx)%R
    /\ (forall upper lower,
          upper_limit_of ws = Fin upper -> lower_limit_of ws = Fin lower ->
          (lower <= arithmetic_mean ws <= upper)%R
          /\ exists vs', lookup "Ave_Weekday_Sleep" (df s') = Some (finite vs')
                         /\ forall v, In v vs' -> (v <= upper)%R).
Proof.
  destruct s as [d pg]. simpl. intros _ Hne Hl.
  destruct ws as [|w ws]; [contradiction|].
  destruct (outlier_analysis_numeric d pg (w :: ws) Hl) as [mn [mx [Hmn [Hmx Hrun]]]].
  unfold series_min, series_max, extremum in Hmn, Hmx.
  rewrite numbers_finite in Hmn, Hmx. inversion Hmn; subst mn. inversion Hmx; subst mx.
  clear Hmn Hmx.
  destruct (fold_left_Rmin ws w) as [Hin1 Hle1].
  destruct (fold_left_Rmax ws w) as [Hin2 Hle2].
  exists (fold_left Rmin ws w), (fold_left Rmax ws w). eexists.
  split; [exact Hrun|]. cbn [page df].
  split; [apply in_or_app; right; simpl; tauto|].
  split; [apply in_or_app; right; simpl; tauto|].
  split; [exact Hin1|]. split; [exact Hin2|].
  assert (Hb : forall v, In v (w :: ws) ->
                 (fold_left Rmin ws w <= v <= fold_left Rmax ws w)%R).
  { intros v Hv. split; [now apply Hle1 | now apply Hle2]. }
  split; [exact Hb|]. split; [apply mean_between; [discriminate | exact Hb]|].
  intros upper lower Hu Hlo. split.
  - unfold upper_limit_of, lower_limit_of in Hu, Hlo.
    change (nanmean (w :: ws)) with (Fin (arithmetic_mean (w :: ws))) in Hu, Hlo.
    destruct (fsqrt (nanvar 1 (w :: ws))) as [sd|] eqn:Hsd; [|discriminate].
    apply fsqrt_nonneg in Hsd. simpl in Hu, Hlo.
    inversion Hu; inversion Hlo; subst. lra.
  - exists (map (cap (upper_limit_of (w :: ws))) (w :: ws)).
    split; [now apply lookup_clamped|]. intros v Hv.
    apply in_map_iff in Hv. destruct Hv as [v0 [<- _]].
    rewrite Hu. simpl. apply Rmin_r.
Qed.

Lemma written_statistics_consistent_witness :
  exists mn mx s',
    outlier_analysis {| df := survey16; page := [] |} = (Done tt, s')
    /\ In (WriteValue "The Minimum weekday sleep of the respondents was found to be: "
                      (Num (Fin mn)) "hrs") (page s')
    /\ In (WriteValue "The Maximum weekday sleep of the respondents was found to be: "
                      (Num (Fin mx)) "hrs") (page s')
    /\ In mn sleep16 /\ In mx sleep16
    /\ (forall v, In v sleep16 -> (mn <= v <= mx)%R)
    /\ (mn <= arithmetic_mean sleep16 <= mx)%R
    /\ (forall upper lower,
          upper_limit_of sleep16 = Fin upper -> lower_limit_of sleep16 = Fin lower ->
          (lower <= arithmetic_mean sleep16 <= upper)%R
          /\ exists vs', lookup "Ave_Weekday_Sleep" (df s') = Some (finite vs')
                         /\ forall v, In v vs' -> (v <= upper)%R).
Proof.
  apply (written_statistics_consistent {| df := survey16; page := [] |} sleep16).
  - reflexivity.
  - discriminate.
  - reflexivity.
Defined.

(** ** The short sleepers *)

Lemma select_finite (f : R -> bool) (ws : list R) :
  select (map f ws) (finite ws) = finite (filter f ws).
Proof.
  unfold finite. induction ws as [|w ws IH]; [reflexivity|].
  cbn [map select filter]. destruct (f w); cbn [map]; now rewrite IH.
Qed.

Lemma select_combine {A} (f : A -> bool) (xs : column) (ws : list A) :
  length xs = length ws ->
  length (select (map f ws) xs) = length (filter f ws)
  /\ combine (select (map f ws) xs) (filter f ws) =
     filter (fun p => f (snd p)) (combine xs ws).
Proof.
  revert ws. induction xs as [|x xs IH]; intros [|w ws] Hlen; try discriminate.
  - split; reflexivity.
  - destruct (IH ws) as [IH1 IH2]; [now inversion Hlen|].
    cbn [map select filter combine snd]. destruct (f w); cbn [length combine].
    + split; [now rewrite IH1 | now rewrite IH2].
    + split; assumption.
Qed.

Lemma not_mixed_text (xs : column) : forallb is_text xs = true -> mixed xs = false.
Proof.
  intros H. unfold mixed.
  assert (E : existsb is_number xs = false).
  { induction xs as [|x xs IH]; [reflexivity|]. simpl in H.
    apply andb_prop in H. destruct H as [Hx Hxs]. simpl.
    rewrite (IH Hxs). unfold is_text in Hx. apply negb_true_iff in Hx.
    now rewrite Hx. }
  now rewrite E.
Qed.

Lemma select_text (mask : list bool) (xs : column) :
  forallb is_text xs = true -> forallb is_text (select mask xs) = true.
Proof.
  revert xs. induction mask as [|b mask IH]; intros [|x xs] H; try reflexivity.
  simpl in H. apply andb_prop in H. destruct H as [Hx Hxs].
  simpl. destruct b; simpl; [rewrite Hx|]; now apply IH.
Qed.

Lemma series_lt_finite (ws : list R) :
  series_lt (finite ws) (Fin 6) = Done (map (fun v => Rltb v 6) ws).
Proof. unfold series_lt. now rewrite compare_series_finite. Qed.



(** On the five respondents the filter keeps the first and the fourth. *)
Example short_sleepers_of_five :
  filter (fun v => Rltb v 6) [5; 7; 6; 4; 23]%R = [5; 4]%R.
Proof. unfold Rltb. simpl. decide_Rle. reflexivity. Qed.

(** X10: With its four columns present in a table of distinct labels, sleep a
    column of numbers and the health effects all text, the step writes the
    head of the filtered table, then the three health columns of it in the
    order Health_Effects, Eyewear_User, Interaction_Affects whatever their
    order in the file, then a scatter plot whose two coordinate lists have
    the same length. *)
Theorem short_sleepers_report (s : state) (ws : list R) (h w i : column) :
  distinct (columns (df s)) = true ->
  forallb is_text h = true ->
  lookup "Ave_Weekday_Sleep" (df s) = Some (finite ws) ->
  lookup "Health_Effects" (df s) = Some h ->
  lookup "Eyewear_User" (df s) = Some w ->
  lookup "Interaction_Affects" (df s) = Some i ->
  length h = length ws ->
  let mask := map (fun v => Rltb v 6) ws in
  less_than_6_hours s =
  (Done tt,
   {| df := df s;
      page := page s ++
        [ Subheader "Respondents with Less than 6 Hours of Weekday Sleep";
          WriteFrame (head 5 (getitem_mask mask (df s)));
          WriteText "Health issues, eyewear use, and social interaction of such respondents";
          WriteFrame (head 5 [ ("Health_Effects", select mask h);
                               ("Eyewear_User", select mask w);
                               ("Interaction_Affects", select mask i) ]);
          Subheader "Impact of Sleep Time on Health Issues";
          Pyplot (Scatter (finite (filter (fun v => Rltb v 6) ws)) (select mask h)
                          "Impact of Sleep Time on Health Issues"
                          "Weekday Sleep (hours)" "Health Issues") ] |})
  /\ length (finite (filter (fun v => Rltb v 6) ws)) = length (select mask h).
Proof.
  destruct s as [d pg]. simpl. intros _ Htext Hl Hh Hw Hi Hlen. split.
  - unfold less_than_6_hours. unfold_script.
    rewrite (lookup_Some_has_column _ _ _ Hl). unfold getitem at 1. rewrite Hl.
    rewrite series_lt_finite.
    assert (Hsub : issubset ["Health_Effects"; "Eyewear_User"; "Interaction_Affects"] d
                   = true).
    { unfold issubset. simpl.
      now rewrite (lookup_Some_has_column _ _ _ Hh), (lookup_Some_has_column _ _ _ Hw),
        (lookup_Some_has_column _ _ _ Hi). }
    assert (Hrep : forall pg0,
      health_issues_report (getitem_mask (map (fun v => Rltb v 6) ws) d)
                           {| df := d; page := pg0 |} =
      (Done tt,
       {| df := d;
          page := pg0 ++
            [ WriteText "Health issues, eyewear use, and social interaction of such respondents";
              WriteFrame (head 5 [ ("Health_Effects", select (map (fun v => Rltb v 6) ws) h);
                                   ("Eyewear_User", select (map (fun v => Rltb v 6) ws) w);
                                   ("Interaction_Affects",
                                    select (map (fun v => Rltb v 6) ws) i) ]) ] |})).
    { intros pg0. unfold health_issues_report. unfold_script. rewrite Hsub.
      unfold getitem_list, getitem. rewrite !lookup_getitem_mask, Hh, Hw, Hi.
      tidy_page. reflexivity. }
    rewrite Hrep. rewrite (sleep_health_scatter_run _ d _ _ Hl), Hh.
    rewrite select_finite. unfold scatter.
    rewrite mixed_finite, (not_mixed_text _ (select_text _ _ Htext)).
    cbn [orb]. cbv iota. tidy_page. reflexivity.
  - unfold finite. rewrite length_map. symmetry.
    now apply (select_combine (fun v => Rltb v 6)).
Qed.

Lemma short_sleepers_report_witness :
  let s := {| df := survey_short_nights; page := [] |} in
  let ws := [5; 7; 6; 4; 23]%R in
  let h := [Str "Eye strain"; Str "None"; Str "Headache"; Str "Eye strain"; Str "None"] in
  let w := [Str "Yes"; Str "No"; Str "No"; Str "Yes"; Str "No"] in
  let mask := map (fun v => Rltb v 6) ws in
  less_than_6_hours s =
  (Done tt,
   {| df := df s;
      page := page s ++
        [ Subheader "Respondents with Less than 6 Hours of Weekday Sleep";
          WriteFrame (head 5 (getitem_mask mask (df s)));
          WriteText "Health issues, eyewear use, and social interaction of such respondents";
          WriteFrame (head 5 [ ("Health_Effects", select mask h);
                               ("Eyewear_User", select mask w);
                               ("Interaction_Affects", select mask w) ]);
          Subheader "Impact of Sleep Time on Health Issues";
          Pyplot (Scatter (finite (filter (fun v => Rltb v 6) ws)) (select mask h)
                          "Impact of Sleep Time on Health Issues"
                          "Weekday Sleep (hours)" "Health Issues") ] |})
  /\ length (finite (filter (fun v => Rltb v 6) ws)) = length (select mask h).
Proof.
  apply (short_sleepers_report {| df := survey_short_nights; page := [] |}
           [5; 7; 6; 4; 23]%R); reflexivity.
Defined.

(** ** The clamp and the short sleepers *)

Lemma cap_le (b : float) (v : R) : (cap b v <= v)%R.
Proof. destruct b as [u|]; simpl; [apply Rmin_l | lra]. Qed.

(** X11: In a table of distinct labels the clamp never takes a respondent out
    of the short sleepers: a row whose sleep is below 6 before the outlier
    step is still selected by the filter that runs after it, and when the
    upper limit is at least 6 (or undefined) the filter selects exactly the
    rows it would select on the file. *)
Theorem clamp_keeps_short_sleepers (s : state) (ws : list R) :
  distinct (columns (df s)) = true ->
  lookup "Ave_Weekday_Sleep" (df s) = Some (finite ws) ->
  exists s1 y1 mask0 mask1,
    outlier_analysis s = (Done tt, s1)
    /\ series_lt (finite ws) (Fin 6) = Done mask0
    /\ getitem "Ave_Weekday_Sleep" (df s1) = Done y1
    /\ series_lt y1 (Fin 6) = Done mask1
    /\ Forall2 (fun b0 b1 => b0 = true -> b1 = true) mask0 mask1
    /\ (forall u, upper_limit_of ws = Fin u -> (6 <= u)%R -> mask1 = mask0)
    /\ (upper_limit_of ws = nan -> mask1 = mask0).
Proof.
  destruct s as [d pg]. simpl. intros _ Hl.
  destruct (outlier_analysis_numeric d pg ws Hl) as [mn [mx [_ [_ Hrun]]]].
  exists {| df := clamped ws d;
            page := pg ++
              [ Subheader "Outlier Analysis - Weekday Sleep";
                WriteList "Columns in DataFrame:" (columns d);
                Pyplot (Boxplot (finite ws));
                WriteValue "The Average weekday sleep of the respondents was found to be: "
                           (Num (nanmean ws)) "hrs";
                WriteValue "The Minimum weekday sleep of the respondents was found to be: "
                           mn "hrs";
                WriteValue "The Maximum weekday sleep of the respondents was found to be: "
                           mx "hrs";
                WriteValue "Upper limit for outliers: " (Num (upper_limit_of ws)) "";
                WriteValue "Lower limit for outliers: " (Num (lower_limit_of ws)) "";
                Pyplot (Boxplot (finite (map (cap (upper_limit_of ws)) ws))) ] |}.
  exists (finite (map (cap (upper_limit_of ws)) ws)),
         (map (fun v => Rltb v 6) ws),
         (map (fun v => Rltb v 6) (map (cap (upper_limit_of ws)) ws)).
  split; [exact Hrun|]. split; [apply series_lt_finite|].
  split; [cbn [df]; unfold getitem; now rewrite (lookup_clamped d ws Hl)|].
  split; [apply series_lt_finite|]. split; [|split].
  - induction ws as [|v ws' IH]; simpl; constructor.
    + generalize (upper_limit_of (v :: ws')). intros b. rewrite !Rltb_lt.
      pose proof (cap_le b v). lra.
    + clear IH Hl Hrun. generalize (upper_limit_of (v :: ws')). intros b.
      induction ws' as [|v' ws' IH]; simpl; constructor; [|exact IH].
      rewrite !Rltb_lt. pose proof (cap_le b v'). lra.
  - intros u Hu H6. rewrite Hu, map_map. apply map_ext. intros v. simpl.
    unfold Rltb, Rmin. destruct (Rle_dec v u); [reflexivity|].
    destruct (Rlt_dec u 6), (Rlt_dec v 6); try reflexivity; exfalso; lra.
  - intros Hu. rewrite Hu, map_map. apply map_ext. reflexivity.
Qed.

Lemma clamp_keeps_short_sleepers_witness :
  exists s1 y1 mask0 mask1,
    outlier_analysis {| df := survey16; page := [] |} = (Done tt, s1)
    /\ series_lt (finite sleep16) (Fin 6) = Done mask0
    /\ getitem "Ave_Weekday_Sleep" (df s1) = Done y1
    /\ series_lt y1 (Fin 6) = Done mask1
    /\ Forall2 (fun b0 b1 => b0 = true -> b1 = true) mask0 mask1
    /\ (forall u, upper_limit_of sleep16 = Fin u -> (6 <= u)%R -> mask1 = mask0)
    /\ (upper_limit_of sleep16 = nan -> mask1 = mask0).
Proof.
  apply (clamp_keeps_short_sleepers {| df := survey16; page := [] |} sleep16);
    reflexivity.
Defined.

(** ** The schema summary after the loader *)

Lemma filter_not_null_replace (xs : column) :
  filter (fun x => negb (isnull x)) (map (fun x => if isnull x then Str "0" else x) xs) =
  map (fun x => if isnull x then Str "0" else x) xs.
Proof.
  induction xs as [|x xs IH]; simpl; [reflexivity|].
  destruct (isnull x) eqn:E; simpl; [|rewrite E; simpl]; now rewrite IH.
Qed.

Lemma dtype_of_gap (xs : column) :
  In (Num nan) xs -> dtype_of (map (fun x => if isnull x then Str "0" else x) xs) = object.
Proof.
  intros Hin. unfold dtype_of.
  destruct (map (fun x => if isnull x then Str "0" else x) xs) eqn:E; [reflexivity|].
  rewrite <- E. clear E.
  assert (Hf : forallb is_number
                 (map (fun x => if isnull x then Str "0" else x) xs) = false).
  { induction xs as [|x xs IH]; [contradiction|]. simpl.
    destruct Hin as [->|Hin]; [reflexivity|].
    rewrite (IH Hin). apply andb_false_r. }
  now rewrite Hf.
Qed.

(** X4: After the loader the schema summary shows every column complete: the
    non-null count of a column is its number of rows.  A column of the file
    that had a gap is listed under its new name with all its rows counted
    and dtype object. *)
Theorem info_after_load (csv d : table) :
  load_data csv = Done d ->
  map (fun line => (fst (fst line), snd (fst line))) (info d) =
  map (fun p => (fst p, length (snd p))) d
  /\ forall c xs, In (c, xs) csv -> c <> "Timestamp" -> In (Num nan) xs ->
       In (rename_label rename_columns c, length xs, object) (info d).
Proof.
  intros Hl. unfold load_data in Hl. unfold drop in Hl.
  destruct (forallb (fun l => has_column l csv) ["Timestamp"]); [|discriminate].
  inversion Hl; subst d; clear Hl. split.
  - unfold info, replace_nan. rewrite !map_map. apply map_ext.
    intros [c xs]. cbn [fst snd]. now rewrite filter_not_null_replace.
  - intros c xs Hin Hc Hnan. unfold info, replace_nan, rename. rewrite !map_map.
    apply in_map_iff. exists (c, xs). cbn [fst snd]. split.
    + rewrite filter_not_null_replace, length_map.
      now rewrite (dtype_of_gap xs Hnan).
    + apply filter_In. split; [exact Hin|]. cbn [fst existsb].
      destruct (String.eqb_spec c "Timestamp"); [contradiction | reflexivity].
Qed.

Lemma info_after_load_witness :
  map (fun line => (fst (fst line), snd (fst line))) (info survey_with_gaps) =
  map (fun p => (fst p, length (snd p))) survey_with_gaps
  /\ forall c xs, In (c, xs) csv_with_gaps -> c <> "Timestamp" -> In (Num nan) xs ->
       In (rename_label rename_columns c, length xs, object) (info survey_with_gaps).
Proof.
  apply (info_after_load csv_with_gaps survey_with_gaps). reflexivity.
Defined.

Example info_survey_with_gaps :
  info survey_with_gaps =
  [ ("Age", 2%nat, object); ("Ave_Weekday_Sleep", 2%nat, object);
    ("Ave_Weekend_Sleep", 2%nat, numeric) ].
Proof. reflexivity. Qed.

(** ** A gap in the sleep column *)



(** ** A complete run *)


Lemma lookup_In (c : string) (d : table) (xs : column) :
  lookup c d = Some xs -> In (c, xs) d.
Proof.
  induction d as [|[c' ys] d IH]; [discriminate|]. simpl.
  destruct (String.eqb_spec c c') as [->|_].
  - intros H. inversion H. now left.
  - intros H. right. now apply IH.
Qed.

Lemma is_numeric_finite (ws : list R) : ws <> [] -> is_numeric (finite ws) = true.
Proof.
  intros Hne. unfold is_numeric, dtype_of.
  destruct ws as [|w ws]; [contradiction|]. cbn [finite map].
  assert (H : forallb is_number (Num (Fin w) :: map (fun v => Num (Fin v)) ws) = true).
  { apply forallb_forall. intros x [<-|Hx]; [reflexivity|].
    apply in_map_iff in Hx. now destruct Hx as [v [<- _]]. }
  now rewrite H.
Qed.

Lemma completes_show_raw_data d b : completes d d (show_raw_data b).
Proof. intros pg. destruct b; eexists; reflexivity. Qed.

Lemma completes_data_information d : completes d d data_information.
Proof. intros pg. eexists. reflexivity. Qed.

Lemma completes_basic_information d : completes d d basic_information.
Proof. intros pg. eexists. reflexivity. Qed.

Lemma completes_null_values d : completes d d null_values.
Proof. intros pg. eexists. reflexivity. Qed.

Lemma completes_statistical_summary d :
  d <> [] -> completes d d statistical_summary.
Proof.
  intros Hd pg. unfold statistical_summary. unfold_script.
  rewrite (describe_nonempty d Hd). eexists. reflexivity.
Qed.

Lemma completes_correlation_analysis d :
  select_dtypes_number d <> [] -> completes d d correlation_analysis.
Proof.
  intros Hd pg. unfold correlation_analysis. unfold_script.
  destruct (select_dtypes_number d); [contradiction|]. eexists. reflexivity.
Qed.

Lemma completes_outlier_analysis d ws :
  lookup "Ave_Weekday_Sleep" d = Some (finite ws) ->
  completes d (clamped ws d) outlier_analysis.
Proof.
  intros Hl pg. destruct (outlier_analysis_numeric d pg ws Hl) as [mn [mx [_ [_ H]]]].
  eexists. exact H.
Qed.

Lemma completes_sleep_by_age_group d ws :
  lookup "Ave_Weekday_Sleep" d = Some (finite ws) ->
  completes d d sleep_by_age_group.
Proof.
  intros Hl pg. unfold sleep_by_age_group. unfold_script.
  rewrite (lookup_Some_has_column _ _ _ Hl), andb_true_r.
  destruct (has_column "Age" d) eqn:Ha; [|eexists; reflexivity].
  destruct (lookup_has_column _ _ Ha) as [ages Hages].
  unfold groupby_mean, getitem. rewrite Hages, Hl.
  destruct (agg_mean_finite (groups ages (finite ws))) as [r [Hr _]].
  { intros k vs Hin. apply groups_rows in Hin. subst vs.
    rewrite rows_of_finite. eauto. }
  rewrite Hr. eexists. reflexivity.
Qed.

Lemma existsb_select (f : cell -> bool) (mask : list bool) (xs : column) :
  existsb f (select mask xs) = true -> existsb f xs = true.
Proof.
  revert xs. induction mask as [|b mask IH]; intros [|x xs]; simpl; try discriminate.
  destruct b; simpl.
  - intros H. apply orb_prop in H. destruct H as [->|H]; [reflexivity|].
    rewrite (IH _ H). apply orb_true_r.
  - intros H. rewrite (IH _ H). apply orb_true_r.
Qed.

Lemma mixed_select (mask : list bool) (xs : column) :
  mixed xs = false -> mixed (select mask xs) = false.
Proof.
  unfold mixed. intros H.
  destruct (existsb is_number (select mask xs)) eqn:E1; [|reflexivity].
  destruct (existsb is_text (select mask xs)) eqn:E2; [|reflexivity].
  now rewrite (existsb_select _ _ _ E1), (existsb_select _ _ _ E2) in H.
Qed.

Lemma completes_less_than_6_hours d ws :
  lookup "Ave_Weekday_Sleep" d = Some (finite ws) ->
  (forall h, lookup "Health_Effects" d = Some h -> mixed h = false) ->
  completes d d less_than_6_hours.
Proof.
  intros Hl Hh pg. assert (Hc := lookup_Some_has_column _ _ _ Hl).
  unfold less_than_6_hours. unfold_script. rewrite Hc.
  unfold getitem. rewrite Hl, series_lt_finite.
  match goal with
  | |- context [health_issues_report ?t {| df := d; page := ?p |}] =>
      destruct (health_issues_report_done (map (fun v => Rltb v 6) ws) d p)
        as [pg1 H1]; rewrite H1
  end.
  rewrite (sleep_health_scatter_run _ d pg1 _ Hl).
  destruct (lookup "Health_Effects" d) as [h|]; [|eexists; reflexivity].
  unfold scatter.
  rewrite select_finite, mixed_finite, (mixed_select _ _ (Hh h eq_refl)).
  eexists. reflexivity.
Qed.

Lemma completes_then (d d' d1 : table) (m k K : script unit) :
  completes d d' m ->
  (forall pg, exists pg1,
     k {| df := d'; page := pg |} = K {| df := d1; page := pg1 |}) ->
  forall pg, exists pg1,
    (m ;; k) {| df := d; page := pg |} = K {| df := d1; page := pg1 |}.
Proof.
  intros Hm Hk pg. destruct (Hm pg) as [pg' E]. destruct (Hk pg') as [pg1 E1].
  exists pg1. unfold bind. now rewrite E.
Qed.

Lemma numeric_column_selected (d : table) (ws : list R) :
  ws <> [] ->
  lookup "Ave_Weekday_Sleep" d = Some (finite ws) ->
  select_dtypes_number d <> [].
Proof.
  intros Hne Hl E. apply lookup_In in Hl.
  assert (Hin : In ("Ave_Weekday_Sleep", finite ws) (select_dtypes_number d)).
  { apply filter_In. split; [exact Hl|]. now apply is_numeric_finite. }
  rewrite E in Hin. contradiction.
Qed.

Lemma report_reaches_later_steps
    (chi2_contingency : list (list nat) -> outcome R) (checkbox : bool)
    (d : table) (ws : list R) :
  ws <> [] ->
  lookup "Ave_Weekday_Sleep" d = Some (finite ws) ->
  forall pg, exists pg1,
    report chi2_contingency checkbox {| df := d; page := pg |} =
    (sleep_by_age_group ;; less_than_6_hours ;;
     chi_square_weekday chi2_contingency ;; chi_square_weekend chi2_contingency)
      {| df := clamped ws d; page := pg1 |}.
Proof.
  intros Hne Hl.
  assert (Hd : d <> []) by (intros ->; discriminate).
  assert (Hnum := numeric_column_selected d ws Hne Hl).
  unfold report.
  apply completes_then with (d' := d); [apply completes_show_raw_data|].
  apply completes_then with (d' := d); [apply completes_data_information|].
  apply completes_then with (d' := d); [apply completes_basic_information|].
  apply completes_then with (d' := d); [now apply completes_statistical_summary|].
  apply completes_then with (d' := d); [apply completes_null_values|].
  apply completes_then with (d' := d); [now apply completes_correlation_analysis|].
  apply completes_then with (d' := clamped ws d);
    [now apply completes_outlier_analysis|].
  intros pg0. exists pg0. reflexivity.
Qed.

Section CompleteRun.

Variable chi2_contingency : list (list nat) -> outcome R.
Hypothesis chi2_returns : forall t, exists p, chi2_contingency t = Done p.



End CompleteRun.


(** ** The calls that can end a run *)

Lemma less_than_6_hours_outcome (d : table) (ws : list R) (pg : list output) :
  lookup "Ave_Weekday_Sleep" d = Some (finite ws) ->
  (exists pg', less_than_6_hours {| df := d; page := pg |} =
               (Done tt, {| df := d; page := pg' |}))
  \/ (exists h pg',
        lookup "Health_Effects" d = Some h
        /\ scatter (finite (filter (fun v => Rltb v 6) ws))
                   (select (map (fun v => Rltb v 6) ws) h)
                   "Impact of Sleep Time on Health Issues"
                   "Weekday Sleep (hours)" "Health Issues" = Raised TypeError
        /\ less_than_6_hours {| df := d; page := pg |} =
           (Raised TypeError, {| df := d; page := pg' |})).
Proof.
  intros Hl. assert (Hc := lookup_Some_has_column _ _ _ Hl).
  unfold less_than_6_hours. unfold_script. rewrite Hc.
  unfold getitem. rewrite Hl, series_lt_finite.
  match goal with
  | |- context [health_issues_report ?t {| df := d; page := ?p |}] =>
      destruct (health_issues_report_done (map (fun v => Rltb v 6) ws) d p)
        as [pg1 H1]; rewrite H1
  end.
  rewrite (sleep_health_scatter_run _ d pg1 _ Hl).
  destruct (lookup "Health_Effects" d) as [h|]; [|left; eexists; reflexivity].
  rewrite select_finite.
  destruct (scatter (finite (filter (fun v => Rltb v 6) ws))
                    (select (map (fun v => Rltb v 6) ws) h)
                    "Impact of Sleep Time on Health Issues"
                    "Weekday Sleep (hours)" "Health Issues") as [fig|e] eqn:E;
    [left; eexists; reflexivity|].
  assert (He : e = TypeError).
  { unfold scatter in E.
    destruct (mixed (finite (filter (fun v => Rltb v 6) ws))
              || mixed (select (map (fun v => Rltb v 6) ws) h));
      [now inversion E | discriminate]. }
  subst e. right. exists h. eexists.
  split; [reflexivity|]. split; [exact E | reflexivity].
Qed.

Lemma association_test_outcome
    (chi2_contingency : list (list nat) -> outcome R)
    (x sub sig nosig missing : string) (d : table) (pg : list output) :
  (exists pg',
     association_test chi2_contingency x sub sig nosig missing
       {| df := d; page := pg |} = (Done tt, {| df := d; page := pg' |}))
  \/ (exists a b e pg',
        lookup x d = Some a
        /\ lookup "Interaction_Affects" d = Some b
        /\ chi2_contingency (crosstab a b) = Raised e
        /\ association_test chi2_contingency x sub sig nosig missing
             {| df := d; page := pg |} = (Raised e, {| df := d; page := pg' |})).
Proof.
  destruct (lookup x d) as [a|] eqn:Ha.
  - destruct (lookup "Interaction_Affects" d) as [b|] eqn:Hb.
    + assert (H := association_test_runs chi2_contingency x sub sig nosig missing
                     {| df := d; page := pg |} a b Ha Hb).
      cbn [df page] in H.
      destruct (chi2_contingency (crosstab a b)) as [p|e] eqn:E.
      * left. eexists. exact H.
      * right. exists a, b, e. eexists. repeat split; [exact E | exact H].
    + left. unfold association_test. unfold_script.
      assert (Hc : has_column "Interaction_Affects" d = false).
      { destruct (has_column "Interaction_Affects" d) eqn:Hc; [|reflexivity].
        destruct (lookup_has_column _ _ Hc) as [b Hb']. congruence. }
      rewrite Hc, andb_false_r. eexists. reflexivity.
  - left. unfold association_test. unfold_script.
    assert (Hc : has_column x d = false).
    { destruct (has_column x d) eqn:Hc; [|reflexivity].
      destruct (lookup_has_column _ _ Hc) as [a Ha']. congruence. }
    rewrite Hc. eexists. reflexivity.
Qed.

(** X6: In a table of distinct labels whose weekday sleep is a non-empty
    column of numbers, three calls can end the report with an exception, and
    no other: the scatter plot of the short sleepers, rejecting their health
    effects; the chi-square test of the weekday step; and the chi-square
    test of the weekend step.  The exception of the report is the one that
    call raises.  The short sleepers are those of the clamped column. *)
Theorem report_exceptions
    (chi2_contingency : list (list nat) -> outcome R) (checkbox : bool)
    (s s' : state) (ws : list R) (e : exn) :
  distinct (columns (df s)) = true ->
  ws <> [] ->
  lookup "Ave_Weekday_Sleep" (df s) = Some (finite ws) ->
  report chi2_contingency checkbox s = (Raised e, s') ->
  (exists h,
     lookup "Health_Effects" (df s) = Some h
     /\ scatter (finite (filter (fun v => Rltb v 6) (map (cap (upper_bound ws)) ws)))
                (select (map (fun v => Rltb v 6) (map (cap (upper_bound ws)) ws)) h)
                "Impact of Sleep Time on Health Issues"
                "Weekday Sleep (hours)" "Health Issues" = Raised e)
  \/ (exists a b,
        lookup "ST_Weekday" (df s) = Some a
        /\ lookup "Interaction_Affects" (df s) = Some b
        /\ chi2_contingency (crosstab a b) = Raised e)
  \/ (exists a b,
        lookup "ST_Weekend" (df s) = Some a
        /\ lookup "Interaction_Affects" (df s) = Some b
        /\ chi2_contingency (crosstab a b) = Raised e).
Proof.
  destruct s as [d pg]. simpl. intros _ Hne Hl Hrun.
  rewrite <- upper_limit_is_upper_bound.
  destruct (report_reaches_later_steps chi2_contingency checkbox d ws Hne Hl pg)
    as [pg1 E].
  rewrite E in Hrun. clear E.
  assert (Hl1 := lookup_clamped d ws Hl).
  assert (Ho : forall c, c <> "Ave_Weekday_Sleep" ->
                 lookup c (clamped ws d) = lookup c d).
  { intros c Hc. unfold clamped. now rewrite lookup_loc_assign_other. }
  cbv beta iota delta [bind] in Hrun.
  destruct (completes_sleep_by_age_group _ _ Hl1 pg1) as [pg2 E2].
  rewrite E2 in Hrun. cbv beta iota in Hrun.
  destruct (less_than_6_hours_outcome _ _ pg2 Hl1)
    as [[pg3 E3]|[h [pg3 [Hh [Hsc E3]]]]]; rewrite E3 in Hrun; cbv beta iota in Hrun.
  - unfold chi_square_weekday, chi_square_weekend in Hrun.
    destruct (association_test_outcome chi2_contingency "ST_Weekday"
                "Impact of Screentime on Social Interaction (Weekday)"
                msg_weekday_significant msg_weekday_not_significant
                msg_no_weekday_columns (clamped ws d) pg3)
      as [[pg4 E4]|[a [b [e0 [pg4 [Ha [Hb [Hchi E4]]]]]]]];
      rewrite E4 in Hrun; cbv beta iota in Hrun.
    + destruct (association_test_outcome chi2_contingency "ST_Weekend"
                  "Impact of Screentime on Social Interaction (Weekend)"
                  msg_weekend_significant msg_weekend_not_significant
                  msg_no_weekend_columns (clamped ws d) pg4)
        as [[pg5 E5]|[a [b [e0 [pg5 [Ha [Hb [Hchi E5]]]]]]]];
        rewrite E5 in Hrun; [discriminate|].
      inversion Hrun; subst e0. right. right. exists a, b.
      rewrite Ho in Ha, Hb by discriminate. now repeat split.
    + inversion Hrun; subst e0. right. left. exists a, b.
      rewrite Ho in Ha, Hb by discriminate. now repeat split.
  - inversion Hrun; subst e. left. exists h.
    rewrite Ho in Hh by discriminate. now split.
Qed.

Lemma report_rejected_weekday_test :
  exists s',
    report chi2_rejecting false {| df := survey_sleep_screentime; page := [] |} =
    (Raised ValueError, s').
Proof.
  assert (Hl : lookup "Ave_Weekday_Sleep" survey_sleep_screentime =
               Some (finite [7; 5; 6; 8]%R)) by reflexivity.
  assert (Hne : [7; 5; 6; 8]%R <> []) by discriminate.
  destruct (report_reaches_later_steps chi2_rejecting false survey_sleep_screentime
              _ Hne Hl []) as [pg1 E].
  rewrite E. clear E.
  assert (Hl1 := lookup_clamped _ _ Hl).
  cbv beta iota delta [bind].
  destruct (completes_sleep_by_age_group _ _ Hl1 pg1) as [pg2 E2]. rewrite E2.
  cbv beta iota.
  destruct (completes_less_than_6_hours _ _ Hl1) with (pg := pg2) as [pg3 E3].
  { intros h. unfold clamped. rewrite lookup_loc_assign_other by discriminate.
    discriminate. }
  rewrite E3. cbv beta iota.
  unfold chi_square_weekday.
  rewrite (association_test_runs chi2_rejecting "ST_Weekday" _ _ _ _
             {| df := clamped [7; 5; 6; 8]%R survey_sleep_screentime; page := pg3 |}
             [Str "1-2"; Str "3-4"; Str "1-2"; Str "3-4"]
             [Str "No"; Str "Yes"; Str "No"; Str "Yes"]).
  - eexists. reflexivity.
  - cbn [df]. unfold clamped. now rewrite lookup_loc_assign_other by discriminate.
  - cbn [df]. unfold clamped. now rewrite lookup_loc_assign_other by discriminate.
Qed.

Lemma report_exceptions_witness :
  exists a b,
    lookup "ST_Weekday" survey_sleep_screentime = Some a
    /\ lookup "Interaction_Affects" survey_sleep_screentime = Some b
    /\ chi2_rejecting (crosstab a b) = Raised ValueError.
Proof.
  destruct report_rejected_weekday_test as [s' Hrun].
  destruct (report_exceptions chi2_rejecting false
              {| df := survey_sleep_screentime; page := [] |} s' [7; 5; 6; 8]%R
              ValueError eq_refl)
    as [[h [Hh _]]|[H|[a [b [Ha [Hb Hc]]]]]].
  - discriminate.
  - reflexivity.
  - exact Hrun.
  - discriminate Hh.
  - exact H.
  - exists [Str "1-2"; Str "3-4"; Str "1-2"; Str "3-4"],
           [Str "No"; Str "Yes"; Str "No"; Str "Yes"].
    repeat split.
Defined.

(** ** The bars cover the respondents *)

Lemma add_row_sizes (k v : cell) (g : list (cell * column)) :
  list_sum (map (fun p => length (snd p)) (add_row k v g)) =
  S (list_sum (map (fun p => length (snd p)) g)).
Proof.
  induction g as [|[k' vs] g IH]; simpl; [reflexivity|].
  destruct (cell_compare k k'); simpl; [reflexivity | reflexivity |].
  rewrite IH. lia.
Qed.

Lemma groups_sizes (keys vals : column) :
  Forall (fun k => isnull k = false) keys ->
  length keys = length vals ->
  list_sum (map (fun p => length (snd p)) (groups keys vals)) = length keys.
Proof.
  intros Hk. revert vals. induction Hk as [|k keys Hn Hk IH]; intros [|v vals] Hlen;
    try discriminate; [reflexivity|].
  simpl. rewrite Hn, add_row_sizes, IH; [reflexivity | now inversion Hlen].
Qed.

Lemma rows_of_length_finite (k : cell) (keys : column) (ws : list R) :
  length (rows_of k keys (finite ws)) = length (rows_of k keys ws).
Proof. rewrite rows_of_finite. unfold finite. apply length_map. Qed.

(** X14: When no age is missing, in a table of distinct labels, every
    respondent is counted under exactly one bar of the age chart: the sizes
    of the groups behind the bars add up to the number of rows. *)
Theorem every_respondent_under_one_bar (s : state) (ages : column) (ws : list R) :
  distinct (columns (df s)) = true ->
  lookup "Age" (df s) = Some ages ->
  lookup "Ave_Weekday_Sleep" (df s) = Some (finite ws) ->
  length ages = length ws ->
  Forall (fun k => isnull k = false) ages ->
  exists age_group_means,
    sleep_by_age_group s =
    (Done tt,
     {| df := df s;
        page := page s ++
          [ Subheader "Average Weekday Sleep by Age Group";
            Pyplot (Bar age_group_means "Average Weekday Sleep by Age Group"
                        "Age Group" "Average Weekday Sleep (hours)") ] |})
    /\ list_sum (map (fun bar => length (rows_of (fst bar) ages ws)) age_group_means) =
       length ws
    /\ forall bar, In bar age_group_means -> rows_of (fst bar) ages ws <> [].
Proof.
  destruct s as [d pg]. simpl. intros _ Ha Hw Hlen Hnn.
  assert (Hlen' : length ages = length (finite ws)).
  { unfold finite. now rewrite length_map. }
  destruct (agg_mean_finite (groups ages (finite ws))) as [r [Hr [Hk Hm]]].
  { intros k vs Hin. apply groups_rows in Hin. subst vs.
    rewrite rows_of_finite. eauto. }
  exists r. split; [|split].
  - unfold sleep_by_age_group. unfold_script.
    rewrite (lookup_Some_has_column _ _ _ Ha), (lookup_Some_has_column _ _ _ Hw).
    unfold groupby_mean, getitem. rewrite Ha, Hw, Hr.
    simpl. tidy_page. reflexivity.
  - rewrite <- Hlen, <- (groups_sizes ages (finite ws) Hnn Hlen').
    rewrite <- (map_map fst (fun k => length (rows_of k ages ws))), Hk, map_map.
    f_equal. apply map_ext_in. intros [k vs] Hin. cbn [fst snd].
    apply groups_rows in Hin. subst vs. symmetry. apply rows_of_length_finite.
  - intros [k m] Hin Hempty. cbn [fst] in Hempty.
    assert (Hkey : In k (map fst (groups ages (finite ws)))).
    { rewrite <- Hk. change k with (fst (k, m)). now apply in_map. }
    apply groups_keys in Hkey. destruct Hkey as [Hkey _].
    apply (rows_of_present k ages (finite ws) Hkey).
    rewrite rows_of_finite, Hempty. reflexivity.
Qed.

Lemma every_respondent_under_one_bar_witness :
  exists age_group_means,
    sleep_by_age_group {| df := survey16; page := [] |} =
    (Done tt,
     {| df := survey16;
        page := [] ++
          [ Subheader "Average Weekday Sleep by Age Group";
            Pyplot (Bar age_group_means "Average Weekday Sleep by Age Group"
                        "Age Group" "Average Weekday Sleep (hours)") ] |})
    /\ list_sum (map (fun bar =>
                        length (rows_of (fst bar)
                                  (repeat (Str "25-34") 8 ++ repeat (Str "18-24") 8)
                                  sleep16)) age_group_means) =
       length sleep16
    /\ forall bar, In bar age_group_means ->
         rows_of (fst bar) (repeat (Str "25-34") 8 ++ repeat (Str "18-24") 8) sleep16
         <> [].
Proof.
  apply (every_respondent_under_one_bar {| df := survey16; page := [] |}
           (repeat (Str "25-34") 8 ++ repeat (Str "18-24") 8) sleep16);
    try reflexivity.
  repeat constructor.
Defined.

(** ** The steps after the clamp *)

(** C2, amended: the grouped-mean step and the short-sleepers step run after
    the outlier step, on the table it leaves.  On a non-empty column of
    numbers, in a table of distinct labels, that table has min(v, upper)
    where the file had v and every other column as before.  The report,
    having run through the outlier step, goes on with the grouped means, the
    short sleepers and the two association tests, in this order, from that
    table: the bars are the group means of the clamped values, and the
    filter keeps the rows with min(v, upper) < 6.  When no value reaches
    upper the table is the one the outlier step started from. *)
Theorem later_steps_read_clamped_column
    (chi2_contingency : list (list nat) -> outcome R) (checkbox : bool)
    (s : state) (ws : list R) :
  distinct (columns (df s)) = true ->
  ws <> [] ->
  lookup "Ave_Weekday_Sleep" (df s) = Some (finite ws) ->
  exists d1 pg0 pg1,
    outlier_analysis s = (Done tt, {| df := d1; page := pg0 |})
    /\ getitem "Ave_Weekday_Sleep" d1 = Done (finite (map (cap (upper_bound ws)) ws))
    /\ (forall c, c <> "Ave_Weekday_Sleep" -> getitem c d1 = getitem c (df s))
    /\ columns d1 = columns (df s)
    /\ report chi2_contingency checkbox s =
       (sleep_by_age_group ;; less_than_6_hours ;;
        chi_square_weekday chi2_contingency ;; chi_square_weekend chi2_contingency)
         {| df := d1; page := pg1 |}
    /\ (forall pg ages,
          getitem "Age" (df s) = Done ages ->
          exists age_group_means,
            agg_mean (groups ages (finite (map (cap (upper_bound ws)) ws))) =
            Done age_group_means
            /\ sleep_by_age_group {| df := d1; page := pg |} =
               (Done tt,
                {| df := d1;
                   page := pg ++
                     [ Subheader "Average Weekday Sleep by Age Group";
                       Pyplot (Bar age_group_means "Average Weekday Sleep by Age Group"
                                   "Age Group" "Average Weekday Sleep (hours)") ] |}))
    /\ (forall pg,
          let filtered_df :=
            getitem_mask (map (fun v => Rltb (cap (upper_bound ws) v) 6) ws) d1 in
          less_than_6_hours {| df := d1; page := pg |} =
          (health_issues_report filtered_df ;; sleep_health_scatter filtered_df)
            {| df := d1;
               page := pg ++
                 [ Subheader "Respondents with Less than 6 Hours of Weekday Sleep";
                   WriteFrame (head 5 filtered_df) ] |})
    /\ ((forall v, In v ws -> fge (Fin v) (upper_bound ws) = false) -> d1 = df s).
Proof.
  destruct s as [d pg]. simpl. intros _ Hne Hl.
  destruct (outlier_analysis_numeric d pg ws Hl) as [mn [mx [_ [_ Hrun]]]].
  destruct (report_reaches_later_steps chi2_contingency checkbox d ws Hne Hl pg)
    as [pg1 Hrep].
  assert (Hl1 := lookup_clamped d ws Hl).
  assert (Ho : forall c, c <> "Ave_Weekday_Sleep" ->
                 getitem c (clamped ws d) = getitem c d).
  { intros c Hc. unfold getitem, clamped. now rewrite lookup_loc_assign_other. }
  rewrite <- upper_limit_is_upper_bound.
  exists (clamped ws d). eexists. exists pg1.
  split; [exact Hrun|]. split; [unfold getitem; now rewrite Hl1|].
  split; [exact Ho|]. split; [apply columns_loc_assign|]. split; [exact Hrep|].
  split; [|split].
  - intros pg' ages Ha.
    destruct (agg_mean_finite
                (groups ages (finite (map (cap (upper_limit_of ws)) ws))))
      as [r [Hr _]].
    { intros k vs Hin. apply groups_rows in Hin. subst vs.
      rewrite rows_of_finite. eauto. }
    exists r. split; [exact Hr|].
    assert (Hca : has_column "Age" (clamped ws d) = true).
    { unfold clamped. rewrite has_column_loc_assign. unfold getitem in Ha.
      destruct (lookup "Age" d) as [a|] eqn:E; [|discriminate].
      exact (lookup_Some_has_column _ _ _ E). }
    unfold sleep_by_age_group. unfold_script.
    rewrite Hca, (lookup_Some_has_column _ _ _ Hl1). cbn [andb].
    unfold groupby_mean. rewrite (Ho "Age") by discriminate. rewrite Ha.
    unfold getitem. rewrite Hl1, Hr. tidy_page. reflexivity.
  - intros pg'. cbv zeta. unfold less_than_6_hours. unfold_script.
    rewrite (lookup_Some_has_column _ _ _ Hl1). unfold getitem at 1. rewrite Hl1.
    rewrite series_lt_finite, map_map. tidy_page. reflexivity.
  - intros Hnone. unfold clamped. apply loc_assign_all_false.
    apply Forall_forall. intros b Hb. apply in_map_iff in Hb.
    destruct Hb as [v [<- Hv]]. now apply Hnone.
Qed.

Lemma later_steps_read_clamped_column_witness :
  exists d1 pg1 age_group_means,
    getitem "Ave_Weekday_Sleep" d1 = Done (finite (repeat 7 15 ++ [20])%R)
    /\ report (chi2_constant 1) false {| df := survey16; page := [] |} =
       (sleep_by_age_group ;; less_than_6_hours ;;
        chi_square_weekday (chi2_constant 1) ;; chi_square_weekend (chi2_constant 1))
         {| df := d1; page := pg1 |}
    /\ agg_mean (groups (repeat (Str "25-34") 8 ++ repeat (Str "18-24") 8)
                        (finite (repeat 7 15 ++ [20])%R)) = Done age_group_means
    /\ sleep_by_age_group {| df := d1; page := [] |} =
       (Done tt,
        {| df := d1;
           page := [] ++
             [ Subheader "Average Weekday Sleep by Age Group";
               Pyplot (Bar age_group_means "Average Weekday Sleep by Age Group"
                           "Age Group" "Average Weekday Sleep (hours)") ] |}).
Proof.
  destruct (later_steps_read_clamped_column (chi2_constant 1) false
              {| df := survey16; page := [] |} sleep16 eq_refl)
    as (d1 & pg0 & pg1 & _ & Hcol & _ & _ & Hrep & Hbar & _).
  - discriminate.
  - reflexivity.
  - destruct (Hbar [] (repeat (Str "25-34") 8 ++ repeat (Str "18-24") 8) eq_refl)
      as [m [Hm Hs]].
    rewrite <- upper_limit_is_upper_bound, cap_sleep16 in Hcol, Hm.
    exists d1, pg1, m. repeat split; assumption.
Defined.
